(** * Hinglishly: the structured-response contract of [app.py]

    A shallow embedding of the Streamlit script [src/app.py]: the values a
    JSON decoder can hand back, the Python built-ins the script applies to
    them, the per-session state with its three rewrite slots, and one run
    of the script as a program in a small state-and-halt monad.  The
    theorems at the end relate that program to the written specification. *)

From Stdlib Require Import ZArith NArith List String Ascii Bool Lia.
From Stdlib Require Floats.SpecFloat.
From stdpp Require Import gmap strings list fin_maps pretty.

Open Scope Z_scope.

(** ** Python values *)

(** A Python [str] is a sequence of Unicode code points. *)
Abbreviation pystr := (list N).

(** An ASCII literal of the source, as a [str]. *)
Definition lit (s : string) : pystr := map N_of_ascii (list_ascii_of_string s).

(** What [json.loads] can produce: [None], [bool], [int], [float], [str],
    [list] and [dict] with [str] keys. *)
#[warnings="-register-all"]
Inductive pyval : Type :=
| VNone
| VBool (b : bool)
| VInt (n : Z)
| VFloat (x : SpecFloat.spec_float)
| VStr (s : pystr)
| VList (l : list pyval)
| VDict (d : gmap pystr pyval).

(** [bool(v)], the test behind [if v:] and [not v]. *)
Definition truthy (v : pyval) : bool :=
  match v with
  | VNone => false
  | VBool b => b
  | VInt n => negb (n =? 0)
  | VFloat (SpecFloat.S754_zero _) => false
  | VFloat _ => true
  | VStr s => match s with [] => false | _ => true end
  | VList l => match l with [] => false | _ => true end
  | VDict d => negb (bool_decide (d = ∅))
  end.

(** [isinstance(v, list)]. *)
Definition isinstance_list (v : pyval) : bool :=
  match v with VList _ => true | _ => false end.

(** Lists and dicts have no hash; everything else JSON yields has one. *)
Definition hashable (v : pyval) : bool :=
  match v with VList _ | VDict _ => false | _ => true end.

(** [x or y] on two integers. *)
Definition py_or (x y : Z) : Z := if x =? 0 then y else x.

(** ** String built-ins *)

(** The code points [str.split()] treats as separators
    (CPython's [_PyUnicode_IsWhitespace]). *)
Definition is_space (c : N) : bool :=
  ((0x09 <=? c) && (c <=? 0x0d) || (0x1c <=? c) && (c <=? 0x20)
   || (c =? 0x85) || (c =? 0xa0) || (c =? 0x1680)
   || (0x2000 <=? c) && (c <=? 0x200a)
   || (c =? 0x2028) || (c =? 0x2029) || (c =? 0x202f) || (c =? 0x205f)
   || (c =? 0x3000))%N.

(** [s.split()]: [word] is the token being read, oldest code point first. *)
Fixpoint split_from (word s : pystr) : list pystr :=
  match s with
  | [] => match word with [] => [] | _ => [word] end
  | c :: rest =>
      if is_space c
      then match word with
           | [] => split_from [] rest
           | _ => word :: split_from [] rest
           end
      else split_from (word ++ [c]) rest
  end.

Definition py_split (s : pystr) : list pystr := split_from [] s.

(** [len(x)] as a Python integer. *)
Definition py_len {A} (l : list A) : Z := Z.of_nat (length l).

(** [s.count(c)] for a one-character needle [c]. *)
Fixpoint py_count (c : N) (s : pystr) : Z :=
  match s with
  | [] => 0
  | x :: rest => (if (x =? c)%N then 1 else 0) + py_count c rest
  end.

(** ASCII lower-casing of one code point; others are left alone. *)
Definition ascii_lower (c : N) : N :=
  if ((65 <=? c) && (c <=? 90))%N then (c + 32)%N else c.

Definition is_ascii (s : pystr) : Prop := Forall (λ c, (c < 128)%N) s.

(** The two built-ins whose full tables live in the interpreter:
    [str.lower()] (Unicode case mapping) and [str(v)] as applied by an
    f-string.  What the script relies on is stated as laws: on ASCII text
    [lower] maps A-Z to a-z, and formatting a [str] inserts it verbatim. *)
Class PyRuntime := {
  py_lower : pystr → pystr;
  py_str : pyval → pystr;
  py_lower_ascii : ∀ s, is_ascii s → py_lower s = ascii_lower <$> s;
  py_str_str : ∀ s, py_str (VStr s) = s
}.

(** ** The widgets, the remote services and the page *)

(** The options of the tone [st.selectbox]. *)
Inductive tone_choice := KeepOriginal | Formal | Friendly | Professional | Casual.

Definition tone_label (t : tone_choice) : pystr :=
  match t with
  | KeepOriginal => lit "Keep Original"
  | Formal => lit "Formal"
  | Friendly => lit "Friendly"
  | Professional => lit "Professional"
  | Casual => lit "Casual"
  end.

(** What the widgets return in one run of the script.  The buttons are
    independent inputs here: the script is modelled for every combination
    of them. *)
Record widgets := {
  auto_correct : bool;
  show_suggestions : bool;
  show_explanations : bool;
  show_tone : bool;
  show_vocabulary : bool;
  target_tone : tone_choice;
  text_input : pystr;
  analyze_button : bool;
  clear_button : bool;
  copy_button : bool;
  formal_btn : bool;
  creative_btn : bool;
  professional_btn : bool
}.

(** A remote call returns a value or raises an [Exception], of which the
    script only ever uses [str(e)]. *)
Inductive outcome := Returned (v : pyval) | Raised (msg : pystr).

(** [chain.invoke] as a function of the ["text"] entry of its argument (the
    format instructions are a constant), returning what the JSON parser
    decoded; [llm.invoke] as a function of its prompt, returning the
    [content] of the message. *)
Record services := {
  chain_invoke : pystr → outcome;
  llm_invoke : pystr → outcome
}.

(** [os.getenv("GROQ_API_KEY")], and [get_chain()]/[get_llm()], which give
    the services or raise. *)
Record environment := {
  api_key : option pystr;
  startup : option services
}.

Inductive box :=
| OriginalBox | CorrectedBox (highlighted : bool)
| FormalBox | CreativeBox | ProfessionalBox.

Inductive item := ExplanationItem | VocabularyItem | SuggestionItem.

(** What a run does that can be seen from outside: the notices, metrics
    and panels it draws, each with the text interpolated into it, and the
    calls it sends to the completion endpoint.  Headings, separators and
    spinners carry no data and are not recorded.  A drawing call accepts
    whatever it is given, except [st.metric], which checks its value. *)
Inductive event :=
| StError (msg : pystr)
| StWarning (msg : pystr)
| StSuccess (msg : pystr)
| StInfo (msg : pystr)
| StMetric (label : pystr) (value : pyval)
| StCode (body : pyval)
| StBox (b : box) (content : pystr)
| StItem (k : item) (i : Z) (content : pystr)
| ChainInvoke (text : pystr)
| LlmInvoke (prompt : pystr).

Definition is_network_call (e : event) : bool :=
  match e with ChainInvoke _ | LlmInvoke _ => true | _ => false end.

(** ** The script monad *)

Inductive pyexn := AttributeError | TypeError.

(** How a run ends early: [st.stop()], [st.rerun()], or an exception
    nobody catches. *)
Inductive halt := StopScript | RerunScript | Uncaught (e : pyexn).

(** [st.session_state] and the page drawn so far.  Besides the three slots
    of the script the session holds whatever Streamlit binds for the keyed
    widgets; the script reads and assigns the slots only. *)
Record app_state := {
  session : gmap string pyval;
  screen : list event
}.

Definition script (A : Type) : Type := app_state → (halt + A) * app_state.

#[local] Instance script_ret : MRet script := λ A x st, (inr x, st).

#[local] Instance script_bind : MBind script := λ A B k m st,
  match m st with
  | (inl h, st') => (inl h, st')
  | (inr x, st') => k x st'
  end.

Definition halt_with {A} (h : halt) : script A := λ st, (inl h, st).

Definition emit (e : event) : script unit := λ st,
  (inr tt, {| session := session st; screen := screen st ++ [e] |}).

(** [st.session_state.k = v]. *)
Definition assign (k : string) (v : pyval) : script unit := λ st,
  (inr tt, {| session := <[k := v]> (session st); screen := screen st |}).

(** ['k' not in st.session_state]. *)
Definition not_in_session (k : string) : script bool := λ st,
  (inr (bool_decide (session st !! k = None)), st).

(** [st.session_state.k] as an expression. *)
Definition read (k : string) : script pyval := λ st,
  match session st !! k with
  | Some v => (inr v, st)
  | None => (inl (Uncaught AttributeError), st)
  end.

Definition when (b : bool) (m : script unit) : script unit :=
  if b then m else mret tt.

(** [for i, x in enumerate(l, i0): body]. *)
Fixpoint for_enumerate (i0 : Z) (l : list pyval)
    (body : Z → pyval → script unit) : script unit :=
  match l with
  | [] => mret tt
  | x :: rest => body i0 x ;; for_enumerate (i0 + 1) rest body
  end.

(** [d.get(k, dflt)]; only a [dict] has the method. *)
Definition py_get (d : pyval) (k : pystr) (dflt : pyval) : script pyval :=
  match d with
  | VDict m => mret (default dflt (m !! k))
  | _ => halt_with (Uncaught AttributeError)
  end.

(** Running a script from a given session with an empty page. *)
Definition run_from {A} (m : script A) (ss : gmap string pyval) :
    (halt + A) * app_state :=
  m {| session := ss; screen := [] |}.

(** ** The script *)

Section Script.
Context `{RT : PyRuntime}.

Definition warning_sign : pystr := [0x26a0; 0xfe0f]%N.
Definition check_mark : pystr := [0x2705]%N.
Definition scales : pystr := [0x2696; 0xfe0f]%N.

(** Lines 171-174: [if not api_key]. *)
Definition has_api_key (env : environment) : bool :=
  match api_key env with
  | Some (_ :: _) => true
  | _ => false
  end.

(** The three slots of the rewrite cache. *)
Inductive rewrite_kind := RFormal | RCreative | RProfessional.

Definition slot (r : rewrite_kind) : string :=
  match r with
  | RFormal => "formal_version"
  | RCreative => "creative_version"
  | RProfessional => "professional_version"
  end.

(** Lines 307-312: the Clear button. *)
Definition clear_handler : script unit :=
  assign "formal_version" VNone ;;
  assign "creative_version" VNone ;;
  assign "professional_version" VNone ;;
  halt_with RerunScript.

(** Lines 316-318: the first three statements of the Analyze branch. *)
Definition reset_slots : script unit :=
  assign "formal_version" VNone ;;
  assign "creative_version" VNone ;;
  assign "professional_version" VNone.

(** Lines 324-326. *)
Definition analysis_text (w : widgets) : pystr :=
  if bool_decide (tone_label (target_tone w) ≠ lit "Keep Original")
  then lit "[Adjust tone to " ++ tone_label (target_tone w) ++ lit "] "
       ++ text_input w
  else text_input w.

Definition full_stop : N := 0x2e.
Definition bang : N := 0x21.
Definition question_mark : N := 0x3f.

(** Lines 337-348: the dict of the [except] branch. *)
Definition fallback (text_input : pystr) : pyval :=
  VDict (list_to_map [
    (lit "detected_error", VStr (lit "None"));
    (lit "corrected_text", VStr text_input);
    (lit "suggestions", VList [VStr (lit "Text appears to be correct")]);
    (lit "tone", VStr (lit "Neutral"));
    (lit "clarity_score", VInt 7);
    (lit "vocabulary_enhancements", VList []);
    (lit "explanations", VList []);
    (lit "readability", VStr (lit "Medium"));
    (lit "word_count", VInt (py_len (py_split text_input)));
    (lit "sentence_count",
      VInt (py_or (py_count full_stop text_input + py_count bang text_input
                   + py_count question_mark text_input) 1))
  ]).

(** Lines 328-348: the [try]/[except] that binds [result]. *)
Definition analyze (svc : services) (w : widgets) : script pyval :=
  emit (ChainInvoke (analysis_text w)) ;;
  match chain_invoke svc (analysis_text w) with
  | Returned result => mret result
  | Raised _ =>
      emit (StWarning (warning_sign ++ lit " Using simplified analysis mode")) ;;
      mret (fallback (text_input w))
  end.

(** The values [st.metric] takes: [None], a number (a [bool] is an [int])
    or a [str]. *)
Definition metric_value (value : pyval) : bool :=
  match value with VList _ | VDict _ => false | _ => true end.

(** [st.metric(label, value)]: it raises [TypeError] on any other value,
    which from a JSON decoder means a list or a dict. *)
Definition st_metric (label : pystr) (value : pyval) : script unit :=
  if metric_value value then emit (StMetric label value)
  else halt_with (Uncaught TypeError).

(** Lines 355-365: the four metrics. *)
Definition show_stats (result : pyval) : script unit :=
  word_count ← py_get result (lit "word_count") (VStr (lit "N/A"));
  st_metric ([0x1f4ca]%N ++ lit " Words") word_count ;;
  sentence_count ← py_get result (lit "sentence_count") (VStr (lit "N/A"));
  st_metric ([0x1f4dd]%N ++ lit " Sentences") sentence_count ;;
  clarity ← py_get result (lit "clarity_score") (VInt 7);
  st_metric ([0x1f3af]%N ++ lit " Clarity")
    (VStr (py_str clarity ++ lit "/10")) ;;
  readability ← py_get result (lit "readability") (VStr (lit "Medium"));
  st_metric ([0x1f4d6]%N ++ lit " Readability") readability.

(** [error_type.lower() == "none"]; only a [str] has [lower]. *)
Definition lower_is_none (error_type : pyval) : script bool :=
  match error_type with
  | VStr s => mret (bool_decide (py_lower s = lit "none"))
  | _ => halt_with (Uncaught AttributeError)
  end.

Definition no_errors_notice : event :=
  StSuccess (check_mark ++ lit " **Excellent!** No errors detected in your text.").

Definition issue_notice (error_type : pyval) : event :=
  StWarning (warning_sign ++ lit " **Issue Detected:** " ++ py_str error_type).

(** Lines 370-374. *)
Definition show_error_type (result : pyval) : script unit :=
  error_type ← py_get result (lit "detected_error") (VStr (lit "Unknown"));
  none ← lower_is_none error_type;
  if none : bool then emit no_errors_notice
  else emit (issue_notice error_type).

(** Lines 379-385. *)
Definition tone_colors : gmap pystr pystr :=
  list_to_map [
    (lit "Formal", [0x1f3a9]%N);
    (lit "Friendly", [0x1f60a]%N);
    (lit "Professional", [0x1f4bc]%N);
    (lit "Casual", [0x1f60e]%N);
    (lit "Neutral", scales)
  ].

(** Line 386: [tone_colors.get(tone, ...)] hashes its key first. *)
Definition tone_colors_get (tone : pyval) : script pystr :=
  match tone with
  | VStr s => mret (default scales (tone_colors !! s))
  | _ => if hashable tone then mret scales
         else halt_with (Uncaught TypeError)
  end.

(** Lines 377-387. *)
Definition show_tone_info (w : widgets) (result : pyval) : script unit :=
  when (show_tone w) (
    tone ← py_get result (lit "tone") (VStr (lit "Neutral"));
    tone_icon ← tone_colors_get tone;
    emit (StInfo (tone_icon ++ lit " **Detected Tone:** " ++ py_str tone))).

(** Lines 392-405: the two text panels. *)
Definition show_comparison (w : widgets) (corrected : pyval) : script unit :=
  emit (StBox OriginalBox (text_input w)) ;;
  if auto_correct w then
    emit (StBox (CorrectedBox true) (py_str corrected)) ;;
    when (copy_button w) (emit (StCode corrected))
  else
    emit (StBox (CorrectedBox false) (py_str corrected)).

(** The shape shared by lines 408-418, 421-431 and 434-444: the list under
    [key] is drawn when it is truthy, a [list], and of positive length. *)
Definition show_list (enabled : bool) (key : pystr) (k : item)
    (result : pyval) : script unit :=
  when enabled (
    entries ← py_get result key (VList []);
    match entries with
    | VList l =>
        when (truthy entries && isinstance_list entries && (0 <? py_len l))
          (for_enumerate 1 l (λ i x, emit (StItem k i (py_str x))))
    | _ => mret tt
    end).

Definition pressed (r : rewrite_kind) (w : widgets) : bool :=
  match r with
  | RFormal => formal_btn w
  | RCreative => creative_btn w
  | RProfessional => professional_btn w
  end.

(** Lines 464, 481 and 498: the three one-line prompts. *)
Definition prompt_prefix (r : rewrite_kind) : pystr :=
  match r with
  | RFormal =>
      lit "Rewrite this text in a formal tone while maintaining its meaning. Keep it concise: "
  | RCreative =>
      lit "Rewrite this text in a creative and engaging way while maintaining its meaning. Keep it concise: "
  | RProfessional =>
      lit "Rewrite this text in a professional business tone while maintaining its meaning. Keep it concise: "
  end.

Definition rewrite_prompt (r : rewrite_kind) (corrected : pyval) : pystr :=
  prompt_prefix r ++ py_str corrected.

(** Lines 468, 485 and 502. *)
Definition failure_notice (r : rewrite_kind) (msg : pystr) : event :=
  StError (match r with
           | RFormal => lit "Failed to generate formal version: "
           | RCreative => lit "Failed to generate creative version: "
           | RProfessional => lit "Failed to generate professional version: "
           end ++ msg).

Definition rewrite_box (r : rewrite_kind) : box :=
  match r with
  | RFormal => FormalBox
  | RCreative => CreativeBox
  | RProfessional => ProfessionalBox
  end.

(** Lines 461-468, 478-485 and 495-502: one rewrite button with its
    [try]/[except]. *)
Definition rewrite_handler (svc : services) (r : rewrite_kind)
    (corrected : pyval) : script unit :=
  emit (LlmInvoke (rewrite_prompt r corrected)) ;;
  match llm_invoke svc (rewrite_prompt r corrected) with
  | Returned content => assign (slot r) content
  | Raised msg => emit (failure_notice r msg)
  end.

(** Lines 460-475, 477-492 and 494-509: one column of the rewrite row. *)
Definition rewrite_column (svc : services) (w : widgets) (r : rewrite_kind)
    (corrected : pyval) : script unit :=
  when (pressed r w) (rewrite_handler svc r corrected) ;;
  version ← read (slot r);
  when (truthy version) (emit (StBox (rewrite_box r) (py_str version))).

(** Lines 451-456. *)
Definition init_slots : script unit :=
  (absent ← not_in_session "formal_version";
   when absent (assign "formal_version" VNone)) ;;
  (absent ← not_in_session "creative_version";
   when absent (assign "creative_version" VNone)) ;;
  (absent ← not_in_session "professional_version";
   when absent (assign "professional_version" VNone)).

(** Lines 446-509. *)
Definition paraphrasing (svc : services) (w : widgets)
    (corrected : pyval) : script unit :=
  init_slots ;;
  rewrite_column svc w RFormal corrected ;;
  rewrite_column svc w RCreative corrected ;;
  rewrite_column svc w RProfessional corrected.

(** Lines 350-509: everything drawn from [result]. *)
Definition show_results (svc : services) (w : widgets)
    (result : pyval) : script unit :=
  show_stats result ;;
  show_error_type result ;;
  show_tone_info w result ;;
  corrected ← py_get result (lit "corrected_text") (VStr (text_input w));
  show_comparison w corrected ;;
  show_list (show_explanations w) (lit "explanations") ExplanationItem result ;;
  show_list (show_vocabulary w) (lit "vocabulary_enhancements")
    VocabularyItem result ;;
  show_list (show_suggestions w) (lit "suggestions") SuggestionItem result ;;
  paraphrasing svc w corrected.

Definition empty_input_notice : event :=
  StWarning (warning_sign ++ lit " Please enter some text to analyze.").

(** Lines 320-509: the Analyze branch after the reset. *)
Definition analyze_body (svc : services) (w : widgets) : script unit :=
  if negb (truthy (VStr (text_input w))) then emit empty_input_notice
  else
    result ← analyze svc w;
    show_results svc w result.

(** Lines 314-509: the Analyze button. *)
Definition analyze_handler (svc : services) (w : widgets) : script unit :=
  reset_slots ;;
  analyze_body svc w.

(** One run of the script, top to bottom. *)
Definition run_script (env : environment) (w : widgets) : script unit :=
  if negb (has_api_key env) then
    emit (StError (warning_sign
            ++ lit " API Key not configured. Please contact administrator.")) ;;
    halt_with StopScript
  else
    match startup env with
    | None =>
        emit (StError (warning_sign
                ++ lit " Service initialization failed. Please try again later.")) ;;
        halt_with StopScript
    | Some svc =>
        when (clear_button w) clear_handler ;;
        when (analyze_button w) (analyze_handler svc w)
    end.

End Script.

(** ** The specification's vocabulary *)

(** Lines 177-187: the output structure, which is also the AnalysisResult
    of the specification.  The script hands the class to the parser for
    its format instructions and otherwise works on plain mappings. *)
Record GrammarAnalysis := {
  detected_error : pystr;
  corrected_text : pystr;
  suggestions : list pyval;
  tone : pystr;
  clarity_score : Z;
  vocabulary_enhancements : list pyval;
  explanations : list pyval;
  readability : pystr;
  word_count : Z;
  sentence_count : Z
}.

(** The [default=] of each [Field] that has one. *)
Definition schema_defaults : list (pystr * pyval) := [
  (lit "suggestions", VList []);
  (lit "tone", VStr (lit "Neutral"));
  (lit "clarity_score", VInt 7);
  (lit "vocabulary_enhancements", VList []);
  (lit "explanations", VList []);
  (lit "readability", VStr (lit "Medium"));
  (lit "word_count", VInt 0);
  (lit "sentence_count", VInt 0)
].

(** A [GrammarAnalysis] as the mapping the script passes around. *)
Definition to_dict (r : GrammarAnalysis) : pyval :=
  VDict (list_to_map [
    (lit "detected_error", VStr (detected_error r));
    (lit "corrected_text", VStr (corrected_text r));
    (lit "suggestions", VList (suggestions r));
    (lit "tone", VStr (tone r));
    (lit "clarity_score", VInt (clarity_score r));
    (lit "vocabulary_enhancements", VList (vocabulary_enhancements r));
    (lit "explanations", VList (explanations r));
    (lit "readability", VStr (readability r));
    (lit "word_count", VInt (word_count r));
    (lit "sentence_count", VInt (sentence_count r))
  ]).

(** Whitespace-delimited tokens, counted where they begin: at a code point
    that is not whitespace and follows the start of the text or a
    whitespace code point. *)
Fixpoint token_starts (after_space : bool) (s : pystr) : nat :=
  match s with
  | [] => 0
  | c :: rest =>
      ((if after_space && negb (is_space c) then 1 else 0)
       + token_starts (is_space c) rest)%nat
  end.

Definition token_count (s : pystr) : nat := token_starts true s.

(** Occurrences of ['.'], ['!'] and ['?']. *)
Definition is_terminator (c : N) : bool :=
  ((c =? full_stop) || (c =? bang) || (c =? question_mark))%N.

Definition terminator_count (s : pystr) : nat :=
  length (filter (λ c, is_terminator c = true) s).

(** The Fallback record of the specification, built from the input alone. *)
Definition fallback_record (T : pystr) : GrammarAnalysis := {|
  detected_error := lit "None";
  corrected_text := T;
  suggestions := [VStr (lit "Text appears to be correct")];
  tone := lit "Neutral";
  clarity_score := 7;
  vocabulary_enhancements := [];
  explanations := [];
  readability := lit "Medium";
  word_count := Z.of_nat (token_count T);
  sentence_count := Z.max 1 (Z.of_nat (terminator_count T))
|}.

(** The category labels the system prompt allows for [detected_error]
    (lines 214-215). *)
Definition error_categories : list pystr :=
  lit <$> ["Grammar"; "Spelling"; "Punctuation"; "Word Choice"; "Slang";
           "Transliteration"; "Capitalization"; "Missing Words";
           "Word Order"; "None"]%string.



(** The values read for the three metrics that are shown as they are
    (lines 357, 359 and 365) are all ones [st.metric] takes. *)
Definition metrics_ok (d : gmap pystr pyval) : bool :=
  metric_value (default (VStr (lit "N/A")) (d !! lit "word_count"))
  && metric_value (default (VStr (lit "N/A")) (d !! lit "sentence_count"))
  && metric_value (default (VStr (lit "Medium")) (d !! lit "readability")).

(** The state after three slots were set to [None]. *)
Definition cleared (ss : gmap string pyval) : gmap string pyval :=
  <["professional_version" := VNone]>
    (<["creative_version" := VNone]> (<["formal_version" := VNone]> ss)).

Definition add_events (evs : list event) (st : app_state) : app_state :=
  {| session := session st; screen := screen st ++ evs |}.


(** [m] takes every state to one related to it by [R], however it ends. *)
Definition ensures {A} (R : relation app_state) (m : script A) : Prop :=
  ∀ st, R st (m st).2.

(** The page grew by events that all satisfy [P]. *)
Definition draws (P : event → Prop) : relation app_state :=
  λ st st', ∃ evs, screen st' = screen st ++ evs ∧ Forall P evs.

(** An event that shows or sends a corrected text uses [T] for it. *)
Definition corrected_is (T : pystr) (e : event) : Prop :=
  match e with
  | StBox (CorrectedBox _) content => content = T
  | StCode body => body = VStr T
  | LlmInvoke prompt => ∃ r, prompt = prompt_prefix r ++ T
  | _ => True
  end.

(** From a state satisfying [Pre], [m] runs to its end and leaves a state
    satisfying [Post]. *)
Definition completes {A} (Pre : app_state → Prop) (m : script A)
    (Post : app_state → Prop) : Prop :=
  ∀ st, Pre st → ∃ x st', m st = (inr x, st') ∧ Post st'.

(** Each of the three slots holds something. *)
Definition slots_bound (st : app_state) : Prop :=
  ∀ r, is_Some (session st !! slot r).

(** The session after one of the three tests of lines 451-456. *)
Definition init_slot (k : string) (ss : gmap string pyval) :
    gmap string pyval :=
  if bool_decide (ss !! k = None) then <[k := VNone]> ss else ss.

(** ** Sample inputs *)

(** A runtime to run the model with: exact on ASCII text and on [None],
    [bool], [int] and [str] values; containers and floats are printed as a
    tag only. *)
Definition sample_lower (s : pystr) : pystr := ascii_lower <$> s.

Definition sample_str (v : pyval) : pystr :=
  match v with
  | VNone => lit "None"
  | VBool true => lit "True"
  | VBool false => lit "False"
  | VInt n => lit (pretty n)
  | VFloat _ => lit "<float>"
  | VStr s => s
  | VList _ => lit "<list>"
  | VDict _ => lit "<dict>"
  end.

#[local] Instance sample_runtime : PyRuntime :=
  {| py_lower := sample_lower;
     py_str := sample_str;
     py_lower_ascii := λ s _, eq_refl;
     py_str_str := λ s, eq_refl |}.

(** All toggles on, the Analyze button pressed. *)
Definition sample_widgets (t : tone_choice) (text : pystr) : widgets := {|
  auto_correct := true; show_suggestions := true; show_explanations := true;
  show_tone := true; show_vocabulary := true;
  target_tone := t; text_input := text;
  analyze_button := true; clear_button := false; copy_button := false;
  formal_btn := false; creative_btn := false; professional_btn := false
|}.

(** An endpoint whose analysis call decodes to [v] and whose rewrite calls
    fail. *)
Definition answering (v : pyval) : services := {|
  chain_invoke := λ _, Returned v;
  llm_invoke := λ _, Raised (lit "connection refused")
|}.

(** An endpoint on which every call raises. *)
Definition failing : services := {|
  chain_invoke := λ _, Raised (lit "Invalid json output");
  llm_invoke := λ _, Raised (lit "connection refused")
|}.

Definition sample_env (svc : services) : environment :=
  {| api_key := Some (lit "gsk_key"); startup := Some svc |}.



(** The Clear button pressed, nothing else. *)
Definition clear_widgets (text : pystr) : widgets := {|
  auto_correct := true; show_suggestions := true; show_explanations := true;
  show_tone := true; show_vocabulary := true;
  target_tone := KeepOriginal; text_input := text;
  analyze_button := false; clear_button := true; copy_button := false;
  formal_btn := false; creative_btn := false; professional_btn := false
|}.

(** A response that names an error and carries no corrected text. *)
Definition no_corrected : gmap pystr pyval :=
  list_to_map [(lit "detected_error", VStr (lit "Grammar"))].

(** A session holding an earlier formal rewrite. *)
Definition used_session : gmap string pyval :=
  <["formal_version" := VStr (lit "Kindly attend the meeting.")]> ∅.



(** ** Vocabulary for the properties of whole runs *)

#[local] Instance tone_choice_eq_dec : EqDecision tone_choice.
Proof. solve_decision. Defined.

Section Runs.
Context `{RT : PyRuntime}.

(** The tag of line 326, up to the input text. *)
Definition tone_tag (t : tone_choice) : pystr :=
  lit "[Adjust tone to " ++ tone_label t ++ lit "] ".

(** The same widgets with another tone and text. *)
Definition with_request (w : widgets) (t : tone_choice) (text : pystr) :
    widgets := {|
  auto_correct := auto_correct w; show_suggestions := show_suggestions w;
  show_explanations := show_explanations w; show_tone := show_tone w;
  show_vocabulary := show_vocabulary w;
  target_tone := t; text_input := text;
  analyze_button := analyze_button w; clear_button := clear_button w;
  copy_button := copy_button w; formal_btn := formal_btn w;
  creative_btn := creative_btn w; professional_btn := professional_btn w
|}.

Definition is_chain_call (e : event) : bool :=
  match e with ChainInvoke _ => true | _ => false end.

Definition any_pressed (w : widgets) : bool :=
  formal_btn w || creative_btn w || professional_btn w.

(** What the display of a result may put on the page under the widgets
    [w]: each optional panel only with its toggle on, the copy block only
    with auto-correct on and its button pressed, a rewrite prompt or a
    failure notice only with a rewrite button pressed, and never a call to
    the analysis chain. *)
Definition displayable (w : widgets) (e : event) : bool :=
  match e with
  | StMetric _ _ | StSuccess _ | StWarning _ => true
  | StInfo _ => show_tone w
  | StBox OriginalBox _ => true
  | StBox (CorrectedBox highlighted) _ =>
      bool_decide (highlighted = auto_correct w)
  | StBox FormalBox _ | StBox CreativeBox _ | StBox ProfessionalBox _ => true
  | StCode _ => auto_correct w && copy_button w
  | StItem ExplanationItem _ _ => show_explanations w
  | StItem VocabularyItem _ _ => show_vocabulary w
  | StItem SuggestionItem _ _ => show_suggestions w
  | StError _ | LlmInvoke _ => any_pressed w
  | ChainInvoke _ => false
  end.

(** The panel of lines 470-475, 487-492 and 504-509 for a stored value. *)
Definition version_box (r : rewrite_kind) (version : pyval) : list event :=
  if truthy version then [StBox (rewrite_box r) (py_str version)] else [].

(** The items a list panel draws for the entries [l]. *)
Definition numbered (k : item) (l : list pyval) : list event :=
  imap (λ i x, StItem k (Z.of_nat i + 1) (py_str x)) l.

(** The outcome of displaying a decoded mapping: the metrics come first,
    then the error notice, then the tone line. *)
Definition display_outcome (w : widgets) (d : gmap pystr pyval) :
    halt + unit :=
  if negb (metrics_ok d) then inl (Uncaught TypeError)
  else
    match default (VStr (lit "Unknown")) (d !! lit "detected_error") with
    | VStr _ =>
        if show_tone w
           && negb (hashable
                      (default (VStr (lit "Neutral")) (d !! lit "tone")))
        then inl (Uncaught TypeError)
        else inr tt
    | _ => inl (Uncaught AttributeError)
    end.

(** The page drawn for a result that has the ten fields of the schema, up
    to the rewrite row. *)
Definition result_page (w : widgets) (r : GrammarAnalysis) : list event :=
  [StMetric ([0x1f4ca]%N ++ lit " Words") (VInt (word_count r));
   StMetric ([0x1f4dd]%N ++ lit " Sentences") (VInt (sentence_count r));
   StMetric ([0x1f3af]%N ++ lit " Clarity")
     (VStr (py_str (VInt (clarity_score r)) ++ lit "/10"));
   StMetric ([0x1f4d6]%N ++ lit " Readability") (VStr (readability r));
   if bool_decide (py_lower (detected_error r) = lit "none")
   then no_errors_notice else issue_notice (VStr (detected_error r))]
  ++ (if show_tone w
      then [StInfo (default scales (tone_colors !! tone r)
                    ++ lit " **Detected Tone:** " ++ tone r)]
      else [])
  ++ [StBox OriginalBox (text_input w);
      StBox (CorrectedBox (auto_correct w)) (corrected_text r)]
  ++ (if auto_correct w && copy_button w
      then [StCode (VStr (corrected_text r))] else [])
  ++ (if show_explanations w
      then numbered ExplanationItem (explanations r) else [])
  ++ (if show_vocabulary w
      then numbered VocabularyItem (vocabulary_enhancements r) else [])
  ++ (if show_suggestions w
      then numbered SuggestionItem (suggestions r) else []).

(** One interaction: the widget values of the run it triggers, and what
    Streamlit itself does to [st.session_state] around that run, where it
    binds the keyed widgets ([input_text], [formal_btn], [creative_btn],
    [professional_btn]).  The script assigns and tests the three slots
    only. *)
Record interaction := {
  values : widgets;
  binds : gmap string pyval → gmap string pyval
}.

(** Streamlit leaves the three keys of the script alone. *)
Definition keeps_slots (f : gmap string pyval → gmap string pyval) : Prop :=
  ∀ ss r, f ss !! slot r = ss !! slot r.

(** Streamlit runs the script once per interaction, keeps
    [st.session_state] from one run to the next, with its own bindings
    added, and redraws the page. *)
Fixpoint run_many (env : environment) (steps : list interaction)
    (ss : gmap string pyval) : gmap string pyval :=
  match steps with
  | [] => ss
  | i :: rest =>
      run_many env rest
        (binds i (session (run_from (run_script env (values i)) ss).2))
  end.

(** Two states with the same page and the same three slots. *)
Definition same_slots (st1 st2 : app_state) : Prop :=
  screen st1 = screen st2
  ∧ ∀ r, session st1 !! slot r = session st2 !! slot r.

(** [m] does the same from any two such states. *)
Definition slots_only {A} (m : script A) : Prop :=
  ∀ st1 st2, same_slots st1 st2 →
    (m st1).1 = (m st2).1 ∧ same_slots (m st1).2 (m st2).2.

(** At most one button reports a press in a run. *)
Definition one_button (w : widgets) : bool :=
  (length (filter (λ b : bool, b = true)
     [analyze_button w; clear_button w; copy_button w;
      formal_btn w; creative_btn w; professional_btn w]) <=? 1)%nat.

(** A value a slot can have received from the script: [None], or the
    content of some completion. *)
Definition from_llm (svc : services) (v : pyval) : Prop :=
  v = VNone ∨ ∃ prompt, llm_invoke svc prompt = Returned v.

(** A slot holds what it held before or a value received from the
    script. *)
Definition footprint (svc : services) : relation app_state :=
  λ st st',
    ∀ r v, session st' !! slot r = Some v →
           session st !! slot r = Some v ∨ from_llm svc v.

(** A slot holds what it held before or [None]. *)
Definition only_cleared : relation app_state :=
  λ st st',
    ∀ r v, session st' !! slot r = Some v →
           session st !! slot r = Some v ∨ v = VNone.

End Runs.

(** A text typed with a tone tag in front, and the same request made with
    the selector. *)
Definition typed_tag : widgets :=
  sample_widgets KeepOriginal (lit "[Adjust tone to Formal] kal milte hai").

Definition chosen_tone : widgets :=
  sample_widgets Formal (lit "kal milte hai").

(** A response with two explanations. *)
Definition two_explanations : gmap pystr pyval :=
  list_to_map [
    (lit "detected_error", VStr (lit "Grammar"));
    (lit "explanations",
      VList [VStr (lit "Added comma"); VStr (lit "Changed name to naam")])
  ].

(** An endpoint whose rewrite calls return [content]. *)
Definition rewriting (content : pyval) : services := {|
  chain_invoke := λ _, Raised (lit "Invalid json output");
  llm_invoke := λ _, Returned content
|}.

(** The Formal rewrite button reported together with Analyze. *)
Definition formal_pressed (text : pystr) : widgets := {|
  auto_correct := true; show_suggestions := true; show_explanations := true;
  show_tone := true; show_vocabulary := true;
  target_tone := KeepOriginal; text_input := text;
  analyze_button := true; clear_button := false; copy_button := false;
  formal_btn := true; creative_btn := false; professional_btn := false
|}.

(** No key in the environment. *)
Definition no_key_env : environment :=
  {| api_key := None; startup := Some failing |}.

(** A run with the widget values [w], around which Streamlit binds the
    text area under its key. *)
Definition typing (w : widgets) : interaction :=
  {| values := w; binds := <["input_text" := VStr (text_input w)]> |}.

(** * Proofs *)

(** ** Strings: counting tokens and terminators *)

Lemma split_from_length word s :
  length (split_from word s)
  = (token_starts (bool_decide (word = [])) s
     + (if bool_decide (word = []) then 0 else 1))%nat.
Proof.
  revert word. induction s as [|c rest IH]; intros word.
  - destruct word; reflexivity.
  - simpl. destruct (is_space c) eqn:Hc.
    + destruct word as [|x word'].
      * rewrite IH. reflexivity.
      * simpl. rewrite IH. simpl. lia.
    + rewrite IH. destruct word as [|x word']; simpl; lia.
Qed.

Lemma py_split_token_count s : length (py_split s) = token_count s.
Proof.
  unfold py_split, token_count. rewrite split_from_length. simpl. lia.
Qed.

Lemma terminators_sum s :
  py_count full_stop s + py_count bang s + py_count question_mark s
  = Z.of_nat (terminator_count s).
Proof.
  unfold terminator_count, full_stop, bang, question_mark.
  induction s as [|x rest IH]; [reflexivity|].
  simpl py_count. rewrite filter_cons.
  destruct (decide (is_terminator x = true)) as [Hx|Hx];
    unfold is_terminator, full_stop, bang, question_mark in Hx; simpl length;
    destruct (N.eqb_spec x 0x2e), (N.eqb_spec x 0x21), (N.eqb_spec x 0x3f);
    simpl in Hx; try congruence; lia.
Qed.

Lemma py_or_floor n : 0 <= n → py_or n 1 = Z.max 1 n.
Proof.
  intros Hn. unfold py_or. destruct (Z.eqb_spec n 0); lia.
Qed.

Lemma ascii_lower_ascii c : (ascii_lower c < 128)%N → (c < 128)%N.
Proof.
  unfold ascii_lower.
  destruct (N.leb_spec 65 c), (N.leb_spec c 90); simpl; lia.
Qed.

Lemma casing_is_ascii s t :
  ascii_lower <$> s = t → is_ascii t → is_ascii s.
Proof.
  intros <-. unfold is_ascii. rewrite Forall_fmap. intros Hlow.
  eapply Forall_impl; [exact Hlow|]. intros c. apply ascii_lower_ascii.
Qed.

Lemma is_ascii_none : is_ascii (lit "none").
Proof. unfold is_ascii. by repeat constructor. Qed.

Lemma is_ascii_Unknown : is_ascii (lit "Unknown").
Proof. unfold is_ascii. by repeat constructor. Qed.

(** ** Running scripts *)

Arguments lit : simpl never.

(** Unfolds the monad operations in the goal. *)
Ltac step_script :=
  cbv [mbind script_bind mret script_ret emit assign halt_with when
       add_events not_in_session read];
  cbn [session screen fst snd].


Lemma bind_run {A B} (m : script A) (k : A → script B) st :
  (m ≫= k) st
  = match m st with
    | (inl h, st') => (inl h, st')
    | (inr x, st') => k x st'
    end.
Proof. reflexivity. Qed.

Lemma cleared_slot ss r : cleared ss !! slot r = Some VNone.
Proof. destruct r; unfold cleared; by simplify_map_eq. Qed.

Lemma slot_inj r r' : slot r = slot r' → r = r'.
Proof. by destruct r, r'. Qed.

Section Steps.
Context `{RT : PyRuntime}.

(** The dict literal of the [except] branch is the specification's
    Fallback record. *)
Lemma fallback_is_record T : fallback T = to_dict (fallback_record T).
Proof.
  unfold fallback, to_dict, fallback_record, py_len.
  rewrite terminators_sum, py_or_floor, py_split_token_count by lia.
  reflexivity.
Qed.

Lemma analyze_raised svc w st msg :
  chain_invoke svc (analysis_text w) = Raised msg →
  analyze svc w st
  = (inr (fallback (text_input w)),
     add_events [ChainInvoke (analysis_text w);
                 StWarning (warning_sign ++ lit " Using simplified analysis mode")]
       st).
Proof.
  intros Hraise. unfold analyze. rewrite Hraise. step_script.
  by rewrite <- app_assoc.
Qed.

Lemma analyze_returned svc w st v :
  chain_invoke svc (analysis_text w) = Returned v →
  analyze svc w st = (inr v, add_events [ChainInvoke (analysis_text w)] st).
Proof.
  intros Hret. unfold analyze. by rewrite Hret.
Qed.

(** Once the key is there and the services came up, a run is the two
    button branches. *)
Lemma run_script_ready env svc w :
  has_api_key env = true → startup env = Some svc →
  run_script env w
  = (when (clear_button w) clear_handler ;;
     when (analyze_button w) (analyze_handler svc w)).
Proof. intros Hkey Hsvc. unfold run_script. by rewrite Hkey, Hsvc. Qed.

Lemma analyze_handler_run svc w st :
  analyze_handler svc w st
  = analyze_body svc w
      {| session := cleared (session st); screen := screen st |}.
Proof. reflexivity. Qed.

Lemma analyze_body_empty svc w st :
  text_input w = [] →
  analyze_body svc w st = (inr tt, add_events [empty_input_notice] st).
Proof. intros HT. unfold analyze_body. by rewrite HT. Qed.

Lemma run_script_empty_input env svc w ss :
  has_api_key env = true → startup env = Some svc →
  clear_button w = false → analyze_button w = true → text_input w = [] →
  run_from (run_script env w) ss
  = (inr tt, {| session := cleared ss; screen := [empty_input_notice] |}).
Proof.
  intros Hkey Hsvc Hclear Hanalyze HT.
  rewrite (run_script_ready env svc) by done.
  unfold run_from. rewrite Hclear, Hanalyze. step_script.
  rewrite analyze_handler_run. by rewrite analyze_body_empty.
Qed.

Lemma rewrite_handler_raised svc r corrected st msg :
  llm_invoke svc (rewrite_prompt r corrected) = Raised msg →
  rewrite_handler svc r corrected st
  = (inr tt, add_events [LlmInvoke (rewrite_prompt r corrected);
                         failure_notice r msg] st).
Proof.
  intros Hraise. unfold rewrite_handler. rewrite Hraise. step_script.
  by rewrite <- app_assoc.
Qed.

Lemma rewrite_handler_returned svc r corrected st content :
  llm_invoke svc (rewrite_prompt r corrected) = Returned content →
  rewrite_handler svc r corrected st
  = (inr tt,
     {| session := <[slot r := content]> (session st);
        screen := screen st ++ [LlmInvoke (rewrite_prompt r corrected)] |}).
Proof. intros Hret. unfold rewrite_handler. by rewrite Hret. Qed.

Lemma py_get_absent d k dflt st :
  d !! k = None → py_get (VDict d) k dflt st = (inr dflt, st).
Proof. intros Hk. unfold py_get. by rewrite Hk. Qed.

Lemma py_get_present d k dflt v st :
  d !! k = Some v → py_get (VDict d) k dflt st = (inr v, st).
Proof. intros Hk. unfold py_get. by rewrite Hk. Qed.

Lemma show_error_type_str d s st :
  default (VStr (lit "Unknown")) (d !! lit "detected_error") = VStr s →
  show_error_type (VDict d) st
  = (inr tt,
     add_events [if bool_decide (py_lower s = lit "none")
                 then no_errors_notice else issue_notice (VStr s)] st).
Proof.
  intros Hs. unfold show_error_type, py_get. step_script. rewrite Hs.
  unfold lower_is_none. step_script. by case_bool_decide.
Qed.

Lemma show_error_type_not_str d st :
  (∀ s, default (VStr (lit "Unknown")) (d !! lit "detected_error") ≠ VStr s) →
  show_error_type (VDict d) st = (inl (Uncaught AttributeError), st).
Proof.
  intros Hs. unfold show_error_type, py_get. step_script.
  by destruct (default (VStr (lit "Unknown")) (d !! lit "detected_error"))
    as [| | | |s| |]; [..|destruct (Hs s)| |].
Qed.

Lemma show_comparison_str w T st :
  show_comparison w (VStr T) st
  = (inr tt,
     add_events
       ([StBox OriginalBox (text_input w);
         StBox (CorrectedBox (auto_correct w)) T]
        ++ (if auto_correct w && copy_button w then [StCode (VStr T)]
            else [])) st).
Proof.
  unfold show_comparison. destruct (auto_correct w), (copy_button w);
    step_script; rewrite py_str_str, <- ?app_assoc; reflexivity.
Qed.

End Steps.

(** ** Absent, present and unknown keys *)

Section Keys.
Context `{RT : PyRuntime}.






End Keys.

(** ** Relational postconditions *)

Section Ensures.
Variable R : relation app_state.
Hypothesis R_refl : ∀ st, R st st.
Hypothesis R_trans : ∀ st1 st2 st3, R st1 st2 → R st2 st3 → R st1 st3.

Lemma ensures_ret {A} (x : A) : ensures R (mret x).
Proof. intros st. apply R_refl. Qed.

Lemma ensures_halt {A} h : ensures R (halt_with (A := A) h).
Proof. intros st. apply R_refl. Qed.

Lemma ensures_bind {A B} (m : script A) (k : A → script B) :
  ensures R m → (∀ x, ensures R (k x)) → ensures R (m ≫= k).
Proof.
  intros Hm Hk st. rewrite bind_run. specialize (Hm st).
  destruct (m st) as [[h|x] st']; [exact Hm|].
  eapply R_trans; [exact Hm | apply Hk].
Qed.

Lemma ensures_when b (m : script unit) :
  ensures R m → ensures R (when b m).
Proof. intros Hm. destruct b; [exact Hm | apply ensures_ret]. Qed.

Lemma ensures_for_enumerate i0 l body :
  (∀ i x, ensures R (body i x)) → ensures R (for_enumerate i0 l body).
Proof.
  intros Hbody. revert i0.
  induction l as [|x rest IH]; intros i0; simpl.
  - apply ensures_ret.
  - apply ensures_bind; [apply Hbody | intros _; apply IH].
Qed.

Lemma ensures_py_get d k dflt : ensures R (py_get d k dflt).
Proof. destruct d; first [apply ensures_ret | apply ensures_halt]. Qed.

Lemma ensures_not_in_session k : ensures R (not_in_session k).
Proof. intros st. apply R_refl. Qed.

Lemma ensures_read k : ensures R (read k).
Proof. intros st. unfold read. destruct (session st !! k); apply R_refl. Qed.

End Ensures.

Lemma draws_refl P st : draws P st st.
Proof. exists []. by rewrite app_nil_r. Qed.

Lemma draws_trans P st1 st2 st3 :
  draws P st1 st2 → draws P st2 st3 → draws P st1 st3.
Proof.
  intros (evs1 & E1 & H1) (evs2 & E2 & H2). exists (evs1 ++ evs2).
  split; [by rewrite E2, E1, app_assoc | by apply Forall_app].
Qed.

Lemma draws_emit P e : P e → ensures (draws P) (emit e).
Proof. intros He st. exists [e]. split; [reflexivity | by constructor]. Qed.

Lemma draws_assign P k v : ensures (draws P) (assign k v).
Proof.
  intros st. exists []. split; [simpl; by rewrite app_nil_r | constructor].
Qed.

Section Drawing.
Context `{RT : PyRuntime}.
Variable P : event → Prop.

Lemma draws_ret {A} (x : A) : ensures (draws P) (mret x).
Proof. apply ensures_ret, draws_refl. Qed.

Lemma draws_halt {A} h : ensures (draws P) (halt_with (A := A) h).
Proof. apply ensures_halt, draws_refl. Qed.

Lemma draws_bind {A B} (m : script A) (k : A → script B) :
  ensures (draws P) m → (∀ x, ensures (draws P) (k x)) →
  ensures (draws P) (m ≫= k).
Proof. apply ensures_bind, draws_trans. Qed.

Lemma draws_bind_ret {A B} (x : A) (k : A → script B) :
  ensures (draws P) (k x) → ensures (draws P) (mret x ≫= k).
Proof. intros Hk st. apply Hk. Qed.

Lemma draws_when b m : ensures (draws P) m → ensures (draws P) (when b m).
Proof. apply ensures_when, draws_refl. Qed.

Lemma draws_for_enumerate i0 l body :
  (∀ i x, ensures (draws P) (body i x)) →
  ensures (draws P) (for_enumerate i0 l body).
Proof. apply ensures_for_enumerate; [apply draws_refl | apply draws_trans]. Qed.

Lemma draws_py_get d k dflt : ensures (draws P) (py_get d k dflt).
Proof. apply ensures_py_get, draws_refl. Qed.

Lemma draws_not_in_session k : ensures (draws P) (not_in_session k).
Proof. apply ensures_not_in_session, draws_refl. Qed.

Lemma draws_read k : ensures (draws P) (read k).
Proof. apply ensures_read, draws_refl. Qed.

Lemma draws_st_metric label value :
  P (StMetric label value) → ensures (draws P) (st_metric label value).
Proof.
  intros Hmetric. unfold st_metric.
  destruct (metric_value value); [by apply draws_emit | apply draws_halt].
Qed.

End Drawing.

(** Splits a goal [ensures (draws P) m] along the structure of [m]. *)
Ltac draws :=
  repeat first
    [ apply draws_ret | apply draws_halt | apply draws_py_get
    | apply draws_not_in_session | apply draws_read | apply draws_assign
    | apply draws_when
    | apply draws_for_enumerate; intros ? ?
    | apply draws_bind_ret
    | apply draws_bind; [|intros ?]
    | apply draws_st_metric; simpl
    | apply draws_emit; simpl ].

(** ** The corrected text on the page and in the prompts *)

Section Corrected.
Context `{RT : PyRuntime}.
Variable T : pystr.

Lemma draws_show_stats result :
  ensures (draws (corrected_is T)) (show_stats result).
Proof. unfold show_stats. draws; done. Qed.

Lemma draws_show_error_type result :
  ensures (draws (corrected_is T)) (show_error_type result).
Proof.
  unfold show_error_type. draws.
  - unfold lower_is_none. destruct x; draws.
  - destruct x0; unfold no_errors_notice, issue_notice; draws; done.
Qed.

Lemma draws_show_tone_info w result :
  ensures (draws (corrected_is T)) (show_tone_info w result).
Proof.
  unfold show_tone_info. draws; [|done].
  unfold tone_colors_get. destruct x; simpl; draws.
Qed.

Lemma draws_show_list enabled key k result :
  ensures (draws (corrected_is T)) (show_list enabled key k result).
Proof. unfold show_list. draws. destruct x; draws; done. Qed.

Lemma draws_show_comparison w :
  text_input w = T →
  ensures (draws (corrected_is T)) (show_comparison w (VStr T)).
Proof.
  intros HT. unfold show_comparison.
  draws; [done|]. destruct (auto_correct w); draws; by rewrite ?py_str_str.
Qed.

Lemma draws_rewrite_column svc w r :
  ensures (draws (corrected_is T)) (rewrite_column svc w r (VStr T)).
Proof.
  unfold rewrite_column, rewrite_handler. draws.
  - unfold rewrite_prompt. rewrite py_str_str. by exists r.
  - destruct (llm_invoke svc _); unfold failure_notice; draws; done.
  - by destruct r.
Qed.

Lemma draws_paraphrasing svc w :
  ensures (draws (corrected_is T)) (paraphrasing svc w (VStr T)).
Proof.
  unfold paraphrasing.
  apply draws_bind; [unfold init_slots; draws | intros _].
  repeat (apply draws_bind; [apply draws_rewrite_column | intros _]).
  apply draws_rewrite_column.
Qed.

End Corrected.

(** ** Runs that reach their end *)

Section Completes.
Context `{RT : PyRuntime}.
Variable I : app_state → Prop.
Hypothesis I_drawn : ∀ st e, I st → I (add_events [e] st).

Lemma completes_ret {A} (x : A) : completes I (mret x) I.
Proof. intros st Hst. by exists x, st. Qed.

Lemma completes_bind {A B} (Q R : app_state → Prop)
    (m : script A) (k : A → script B) :
  completes I m Q → (∀ x, completes Q (k x) R) → completes I (m ≫= k) R.
Proof.
  intros Hm Hk st Hst. destruct (Hm st Hst) as (x & st' & Hrun & Hst').
  rewrite bind_run, Hrun. by apply Hk.
Qed.

Lemma completes_bind_ret {A B} (R : app_state → Prop)
    (x : A) (k : A → script B) :
  completes I (k x) R → completes I (mret x ≫= k) R.
Proof. intros Hk st Hst. by apply Hk. Qed.

Lemma completes_when b m : completes I m I → completes I (when b m) I.
Proof. intros Hm. destruct b; [exact Hm | apply completes_ret]. Qed.

Lemma completes_emit e : completes I (emit e) I.
Proof. intros st Hst. exists tt, (add_events [e] st). split; auto. Qed.

Lemma completes_for_enumerate i0 l body :
  (∀ i x, completes I (body i x) I) →
  completes I (for_enumerate i0 l body) I.
Proof.
  intros Hbody. revert i0.
  induction l as [|x rest IH]; intros i0; simpl.
  - apply completes_ret.
  - apply completes_bind with I; [apply Hbody | intros _; apply IH].
Qed.

Lemma completes_py_get d k dflt : completes I (py_get (VDict d) k dflt) I.
Proof. apply completes_ret. Qed.

Lemma completes_st_metric label value :
  metric_value value = true → completes I (st_metric label value) I.
Proof. intros Hok. unfold st_metric. rewrite Hok. apply completes_emit. Qed.

Lemma completes_show_stats d :
  metrics_ok d = true → completes I (show_stats (VDict d)) I.
Proof.
  unfold metrics_ok. intros Hok.
  apply andb_prop in Hok as [Hok Hreadability].
  apply andb_prop in Hok as [Hwords Hsentences].
  unfold show_stats, py_get.
  apply completes_bind_ret.
  apply completes_bind with I; [by apply completes_st_metric | intros _].
  apply completes_bind_ret.
  apply completes_bind with I; [by apply completes_st_metric | intros _].
  apply completes_bind_ret.
  apply completes_bind with I; [by apply completes_st_metric | intros _].
  apply completes_bind_ret. by apply completes_st_metric.
Qed.


Lemma completes_show_tone_info w d :
  hashable (default (VStr (lit "Neutral")) (d !! lit "tone")) = true →
  completes I (show_tone_info w (VDict d)) I.
Proof.
  intros Htone. unfold show_tone_info, py_get. apply completes_when.
  apply completes_bind_ret. unfold tone_colors_get.
  destruct (default (VStr (lit "Neutral")) (d !! lit "tone"));
    try discriminate Htone; simpl;
    apply completes_bind_ret, completes_emit.
Qed.

Lemma completes_show_comparison w corrected :
  completes I (show_comparison w corrected) I.
Proof.
  unfold show_comparison.
  apply completes_bind with I; [apply completes_emit | intros _].
  destruct (auto_correct w); [|apply completes_emit].
  apply completes_bind with I; [apply completes_emit | intros _].
  apply completes_when, completes_emit.
Qed.

Lemma completes_show_list enabled key k d :
  completes I (show_list enabled key k (VDict d)) I.
Proof.
  unfold show_list. apply completes_when.
  apply completes_bind with I; [apply completes_py_get | intros entries].
  destruct entries; try apply completes_ret.
  apply completes_when, completes_for_enumerate. intros i x.
  apply completes_emit.
Qed.

End Completes.

Section Slots.
Context `{RT : PyRuntime}.

Lemma slots_bound_drawn st e : slots_bound st → slots_bound (add_events [e] st).
Proof. intros Hst r. apply Hst. Qed.

Lemma slots_bound_assign st k v :
  slots_bound st →
  slots_bound {| session := <[k := v]> (session st); screen := screen st |}.
Proof.
  intros Hst r. simpl. destruct (decide (k = slot r)) as [->|Hne].
  - rewrite lookup_insert_eq. by eexists.
  - rewrite lookup_insert_ne by done. apply Hst.
Qed.

Lemma init_slot_run k st :
  (absent ← not_in_session k; when absent (assign k VNone)) st
  = (inr tt, {| session := init_slot k (session st); screen := screen st |}).
Proof.
  step_script. unfold init_slot. case_bool_decide; by destruct st.
Qed.

Lemma init_slot_bound k ss : is_Some (init_slot k ss !! k).
Proof.
  unfold init_slot. case_bool_decide as Hk.
  - rewrite lookup_insert_eq. by eexists.
  - by apply not_eq_None_Some.
Qed.

Lemma init_slot_mono k k' ss :
  is_Some (ss !! k') → is_Some (init_slot k ss !! k').
Proof.
  intros Hk'. unfold init_slot. case_bool_decide; [|exact Hk'].
  destruct (decide (k = k')) as [->|Hne].
  - rewrite lookup_insert_eq. by eexists.
  - by rewrite lookup_insert_ne.
Qed.

Lemma completes_init_slots :
  completes (λ _, True) init_slots slots_bound.
Proof.
  intros st _. unfold init_slots.
  rewrite bind_run, init_slot_run, bind_run, init_slot_run, init_slot_run.
  eexists tt, _. split; [reflexivity|].
  intros r. simpl. destruct r; simpl.
  - apply init_slot_mono, init_slot_mono, init_slot_bound.
  - apply init_slot_mono, init_slot_bound.
  - apply init_slot_bound.
Qed.

Lemma completes_rewrite_handler svc r corrected :
  completes slots_bound (rewrite_handler svc r corrected) slots_bound.
Proof.
  intros st Hst.
  destruct (llm_invoke svc (rewrite_prompt r corrected)) as [content|msg]
    eqn:Hcall.
  - rewrite (rewrite_handler_returned _ _ _ _ _ Hcall). eexists _, _.
    split; [reflexivity|].
    apply (slots_bound_assign (add_events [_] st)), slots_bound_drawn, Hst.
  - rewrite (rewrite_handler_raised _ _ _ _ _ Hcall). eexists _, _.
    split; [reflexivity|]. intros r'. apply Hst.
Qed.

Lemma completes_read_slot r :
  completes slots_bound (read (slot r)) slots_bound.
Proof.
  intros st Hst. destruct (Hst r) as [v Hv]. exists v, st.
  split; [|exact Hst]. unfold read. by rewrite Hv.
Qed.

Lemma completes_rewrite_column svc w r corrected :
  completes slots_bound (rewrite_column svc w r corrected) slots_bound.
Proof.
  unfold rewrite_column.
  apply completes_bind with slots_bound.
  - apply completes_when, completes_rewrite_handler.
  - intros _. apply completes_bind with slots_bound.
    + apply completes_read_slot.
    + intros version. apply completes_when, completes_emit.
      apply slots_bound_drawn.
Qed.

Lemma completes_paraphrasing svc w corrected :
  completes (λ _, True) (paraphrasing svc w corrected) slots_bound.
Proof.
  unfold paraphrasing.
  apply completes_bind with slots_bound; [apply completes_init_slots|].
  intros _.
  repeat (apply completes_bind with slots_bound;
          [apply completes_rewrite_column | intros _]).
  apply completes_rewrite_column.
Qed.


Lemma init_slots_run st :
  init_slots st
  = (inr tt,
     {| session := init_slot "professional_version"
                     (init_slot "creative_version"
                        (init_slot "formal_version" (session st)));
        screen := screen st |}).
Proof.
  unfold init_slots.
  by rewrite bind_run, init_slot_run, bind_run, init_slot_run, init_slot_run.
Qed.

Lemma rewrite_column_run svc w r corrected st stored :
  session st !! slot r = Some stored →
  rewrite_column svc w r corrected st
  = if pressed r w then
      match llm_invoke svc (rewrite_prompt r corrected) with
      | Returned content =>
          (inr tt,
           {| session := <[slot r := content]> (session st);
              screen := screen st
                        ++ LlmInvoke (rewrite_prompt r corrected)
                           :: version_box r content |})
      | Raised msg =>
          (inr tt,
           add_events ([LlmInvoke (rewrite_prompt r corrected);
                        failure_notice r msg] ++ version_box r stored) st)
      end
    else (inr tt, add_events (version_box r stored) st).
Proof.
  intros Hstored. unfold rewrite_column, version_box. rewrite bind_run.
  destruct (pressed r w); cbn [when].
  - destruct (llm_invoke svc (rewrite_prompt r corrected)) as [content|msg]
      eqn:Hcall.
    + rewrite (rewrite_handler_returned _ _ _ _ _ Hcall).
      unfold read, mbind, script_bind, mret, script_ret.
      cbn [session screen]. rewrite lookup_insert_eq.
      destruct (truthy content); cbn [when]; [|reflexivity].
      unfold emit. cbn [session screen]. by rewrite <- app_assoc.
    + rewrite (rewrite_handler_raised _ _ _ _ _ Hcall).
      unfold read, mbind, script_bind, mret, script_ret, add_events.
      cbn [session screen]. rewrite Hstored.
      destruct (truthy stored); cbn [when];
        unfold emit, mret, script_ret; cbn [session screen];
        by rewrite <- ?app_assoc, ?app_nil_r.
  - unfold read, mbind, script_bind, mret, script_ret, add_events.
    rewrite Hstored.
    destruct (truthy stored); cbn [when]; [reflexivity|].
    destruct st. unfold mret, script_ret. simpl. by rewrite app_nil_r.
Qed.

Lemma rewrite_column_prompt svc w r corrected st :
  slots_bound st →
  ∃ st' evs,
    rewrite_column svc w r corrected st = (inr tt, st')
    ∧ slots_bound st'
    ∧ screen st' = screen st ++ evs
    ∧ (pressed r w = true → LlmInvoke (rewrite_prompt r corrected) ∈ evs).
Proof.
  intros Hbound. destruct (Hbound r) as [stored Hstored].
  rewrite (rewrite_column_run svc w r corrected st stored Hstored).
  destruct (pressed r w).
  - destruct (llm_invoke svc (rewrite_prompt r corrected)) as [content|msg].
    + eexists _, _. split; [reflexivity|]. split; [|split; [reflexivity|]].
      * by apply (slots_bound_assign st).
      * intros _. apply elem_of_cons. by left.
    + eexists _, _. split; [reflexivity|]. split; [|split; [reflexivity|]].
      * intros r'. apply Hbound.
      * intros _. apply elem_of_app. left. apply elem_of_cons. by left.
  - eexists _, _. split; [reflexivity|]. split; [|split; [reflexivity|done]].
    intros r'. apply Hbound.
Qed.

(** The rewrite row ends normally and sends the prompt of every pressed
    button. *)
Lemma paraphrasing_prompts svc w corrected st :
  ∃ st' evs,
    paraphrasing svc w corrected st = (inr tt, st')
    ∧ screen st' = screen st ++ evs
    ∧ ∀ r, pressed r w = true → LlmInvoke (rewrite_prompt r corrected) ∈ evs.
Proof.
  unfold paraphrasing. rewrite bind_run, init_slots_run.
  assert (slots_bound
            {| session := init_slot "professional_version"
                            (init_slot "creative_version"
                               (init_slot "formal_version" (session st)));
               screen := screen st |}) as Hbound.
  { intros r. simpl. destruct r; simpl.
    - apply init_slot_mono, init_slot_mono, init_slot_bound.
    - apply init_slot_mono, init_slot_bound.
    - apply init_slot_bound. }
  destruct (rewrite_column_prompt svc w RFormal corrected _ Hbound)
    as (st1 & evs1 & Hrun1 & Hbound1 & Hscreen1 & Hprompt1).
  destruct (rewrite_column_prompt svc w RCreative corrected _ Hbound1)
    as (st2 & evs2 & Hrun2 & Hbound2 & Hscreen2 & Hprompt2).
  destruct (rewrite_column_prompt svc w RProfessional corrected _ Hbound2)
    as (st3 & evs3 & Hrun3 & Hbound3 & Hscreen3 & Hprompt3).
  rewrite bind_run, Hrun1, bind_run, Hrun2, Hrun3.
  exists st3, (evs1 ++ evs2 ++ evs3). split; [reflexivity|]. split.
  - rewrite Hscreen3, Hscreen2, Hscreen1. simpl. by rewrite <- !app_assoc.
  - intros r Hr. rewrite !elem_of_app. destruct r; auto.
Qed.

(** A sequence that ends normally got through its first part. *)
Lemma bind_inr {A} P (m : script A) (k : A → script unit) st :
  ensures (draws P) m →
  ((m ≫= k) st).1 = inr tt →
  ∃ x st1 evs,
    screen st1 = screen st ++ evs
    ∧ (m ≫= k) st = k x st1 ∧ (k x st1).1 = inr tt.
Proof.
  intros Hdraws. rewrite bind_run. destruct (Hdraws st) as (evs & Hevs & _).
  destruct (m st) as [[h|x] st1]; [done|]. intros Hend.
  by exists x, st1, evs.
Qed.

(** With no [corrected_text] key, a display that runs to its end has drawn
    the corrected-text panel with the input text and sent, for every
    pressed rewrite button, its instruction followed by the input text. *)
Lemma show_results_uses_input svc w d st :
  d !! lit "corrected_text" = None →
  (show_results svc w (VDict d) st).1 = inr tt →
  ∃ evs,
    screen (show_results svc w (VDict d) st).2 = screen st ++ evs
    ∧ StBox (CorrectedBox (auto_correct w)) (text_input w) ∈ evs
    ∧ ∀ r, pressed r w = true →
           LlmInvoke (prompt_prefix r ++ text_input w) ∈ evs.
Proof.
  intros Hd Hend. unfold show_results in *.
  apply (bind_inr _ _ _ _ (draws_show_stats (text_input w) _)) in Hend
    as ([] & st1 & evs1 & Hscreen1 & -> & Hend).
  apply (bind_inr _ _ _ _ (draws_show_error_type (text_input w) _)) in Hend
    as ([] & st2 & evs2 & Hscreen2 & -> & Hend).
  apply (bind_inr _ _ _ _ (draws_show_tone_info (text_input w) _ _)) in Hend
    as ([] & st3 & evs3 & Hscreen3 & -> & Hend).
  rewrite bind_run, (py_get_absent d _ _ _ Hd) in Hend |- *.
  cbv beta iota in Hend |- *.
  rewrite bind_run, show_comparison_str in Hend |- *.
  cbv beta iota in Hend |- *.
  set (panels := _ ++ _ : list event) in Hend |- *.
  set (st4 := add_events panels st3) in Hend |- *.
  assert (screen st4 = screen st3 ++ panels) as Hscreen4 by reflexivity.
  clearbody st4.
  apply (bind_inr _ _ _ _ (draws_show_list (text_input w) _ _ _ _)) in Hend
    as ([] & st5 & evs5 & Hscreen5 & -> & Hend).
  apply (bind_inr _ _ _ _ (draws_show_list (text_input w) _ _ _ _)) in Hend
    as ([] & st6 & evs6 & Hscreen6 & -> & Hend).
  apply (bind_inr _ _ _ _ (draws_show_list (text_input w) _ _ _ _)) in Hend
    as ([] & st7 & evs7 & Hscreen7 & -> & Hend).
  destruct (paraphrasing_prompts svc w (VStr (text_input w)) st7)
    as (st8 & evs8 & -> & Hscreen8 & Hprompts).
  exists (evs1 ++ evs2 ++ evs3 ++ panels ++ evs5 ++ evs6 ++ evs7 ++ evs8).
  split; [|split].
  - cbn [snd]. rewrite Hscreen8, Hscreen7, Hscreen6, Hscreen5, Hscreen4,
      Hscreen3, Hscreen2, Hscreen1. by rewrite <- !app_assoc.
  - rewrite !elem_of_app. do 3 right. left. subst panels.
    rewrite elem_of_app, !elem_of_cons. auto.
  - intros r Hr. rewrite !elem_of_app. do 7 right.
    specialize (Hprompts r Hr). unfold rewrite_prompt in Hprompts.
    by rewrite py_str_str in Hprompts.
Qed.

End Slots.

(** * The specification, claim by claim *)

Section Claims.
Context `{RT : PyRuntime}.

(** C1: when [chain.invoke] raises on a non-empty input [T], the result the
    script goes on to display is exactly the Fallback record built from [T]
    alone -- "None", [T] unchanged, the single suggestion, "Neutral", 7, no
    enhancements, no explanations, "Medium", the number of whitespace
    tokens of [T], and the number of '.', '!' and '?' with a floor of 1 --
    whatever tone directive was put in front of the text sent out. *)
Theorem C1_fallback_on_exception svc w st msg :
  text_input w ≠ [] →
  chain_invoke svc (analysis_text w) = Raised msg →
  let result := to_dict (fallback_record (text_input w)) in
  let st' :=
    add_events [ChainInvoke (analysis_text w);
                StWarning (warning_sign ++ lit " Using simplified analysis mode")]
      st in
  analyze svc w st = (inr result, st')
  ∧ analyze_body svc w st = show_results svc w result st'.
Proof.
  intros Hne Hraise result st'. subst result st'.
  rewrite <- fallback_is_record. split.
  - by apply analyze_raised with msg.
  - unfold analyze_body. destruct (text_input w) as [|c T] eqn:HT; [done|].
    cbn [truthy negb]. rewrite bind_run.
    rewrite (analyze_raised _ _ _ _ Hraise), HT. reflexivity.
Qed.



(** C4: after the Clear button, and at the point where the Analyze branch
    starts its work, each of the three slots holds [None], whatever the
    session held before; a later run in which neither button is pressed
    leaves them so. *)
Theorem C4_slots_empty_after_clear_and_at_analysis_start env svc w ss r :
  has_api_key env = true → startup env = Some svc →
  clear_button w || analyze_button w = true →
  let st1 := {| session := cleared ss; screen := [] |} in
  run_from (run_script env w) ss
  = (if clear_button w then (inl RerunScript, st1)
     else analyze_body svc w st1)
  ∧ session st1 !! slot r = Some VNone
  ∧ ∀ w', clear_button w' = false → analyze_button w' = false →
          run_script env w' st1 = (inr tt, st1).
Proof.
  intros Hkey Hsvc Hpress st1. rewrite (run_script_ready env svc) by done.
  split; [|split; [apply cleared_slot|]].
  - unfold run_from. destruct (clear_button w); [reflexivity|].
    simpl in Hpress. by rewrite Hpress.
  - intros w' Hclear Hanalyze. rewrite (run_script_ready env svc) by done.
    by rewrite Hclear, Hanalyze.
Qed.

(** C5: when [llm.invoke] raises inside a rewrite button's [try], the
    handler ends normally with the failure shown through [st.error], and
    the session -- the slot of that button and the two others -- is what
    it was; whenever a handler does change the session, its call returned
    and the change is the assignment of the returned content to its own
    slot. *)
Theorem C5_failed_rewrite_keeps_slots svc r corrected st msg :
  llm_invoke svc (rewrite_prompt r corrected) = Raised msg →
  (rewrite_handler svc r corrected st).1 = inr tt
  ∧ screen (rewrite_handler svc r corrected st).2
    = screen st ++ [LlmInvoke (rewrite_prompt r corrected);
                    failure_notice r msg]
  ∧ session (rewrite_handler svc r corrected st).2 = session st
  ∧ ∀ svc' r' st',
      session (rewrite_handler svc' r' corrected st').2 ≠ session st' →
      ∃ content,
        llm_invoke svc' (rewrite_prompt r' corrected) = Returned content
        ∧ session (rewrite_handler svc' r' corrected st').2
          = <[slot r' := content]> (session st')
        ∧ ∀ r'', r'' ≠ r' →
            session (rewrite_handler svc' r' corrected st').2 !! slot r''
            = session st' !! slot r''.
Proof.
  intros Hraise. rewrite (rewrite_handler_raised _ _ _ _ _ Hraise).
  repeat split.
  intros svc' r' st' Hchanged.
  destruct (llm_invoke svc' (rewrite_prompt r' corrected)) as [content|msg']
    eqn:Hcall.
  - rewrite (rewrite_handler_returned _ _ _ _ _ Hcall) in *.
    exists content. repeat split.
    intros r'' Hne. simpl. apply lookup_insert_ne.
    intros Heq. apply Hne. symmetry. by apply slot_inj.
  - rewrite (rewrite_handler_raised _ _ _ _ _ Hcall) in Hchanged. done.
Qed.

(** C6: an Analyze press with empty text ends the run with the validation
    warning as the only thing drawn: no result is displayed and no call
    goes to the completion endpoint, whatever the services would have
    answered. *)
Theorem C6_empty_input_short_circuits env svc w ss :
  has_api_key env = true → startup env = Some svc →
  clear_button w = false → analyze_button w = true → text_input w = [] →
  (run_from (run_script env w) ss).1 = inr tt
  ∧ screen (run_from (run_script env w) ss).2 = [empty_input_notice]
  ∧ filter (λ e, is_network_call e = true)
      (screen (run_from (run_script env w) ss).2) = [].
Proof.
  intros Hkey Hsvc Hclear Hanalyze HT.
  rewrite (run_script_empty_input env svc) by done. done.
Qed.


(** C8: the reset of the three slots comes before the emptiness test, so an
    Analyze press with empty text -- which only draws the warning and calls
    nothing -- leaves every slot at [None], whatever rewrite it held. *)
Theorem C8_empty_submission_erases_rewrites env svc w ss r :
  has_api_key env = true → startup env = Some svc →
  clear_button w = false → analyze_button w = true → text_input w = [] →
  session (run_from (run_script env w) ss).2 !! slot r = Some VNone
  ∧ session (run_from (run_script env w) ss).2 = cleared ss
  ∧ screen (run_from (run_script env w) ss).2 = [empty_input_notice]
  ∧ Forall (λ e, is_network_call e = false)
      (screen (run_from (run_script env w) ss).2).
Proof.
  intros Hkey Hsvc Hclear Hanalyze HT.
  rewrite (run_script_empty_input env svc) by done. simpl.
  split; [apply cleared_slot|]. repeat split. by repeat constructor.
Qed.

(** C9: on a decoded mapping the success notice is drawn exactly when the
    value read for [detected_error] is a [str] whose [lower()] is "none",
    which includes every casing of "None"; when the key is absent the value
    read is "Unknown", which is none of the prompt's category labels, and
    the issue notice is drawn with it. *)
Theorem C9_error_type_dispatch d st :
  (show_error_type (VDict d) st = (inr tt, add_events [no_errors_notice] st)
   ↔ ∃ s, default (VStr (lit "Unknown")) (d !! lit "detected_error") = VStr s
          ∧ py_lower s = lit "none")
  ∧ (∀ s, ascii_lower <$> s = lit "none" →
          d !! lit "detected_error" = Some (VStr s) →
          show_error_type (VDict d) st
          = (inr tt, add_events [no_errors_notice] st))
  ∧ (d !! lit "detected_error" = None →
          show_error_type (VDict d) st
          = (inr tt, add_events [issue_notice (VStr (lit "Unknown"))] st))
  ∧ lit "Unknown" ∉ error_categories.
Proof.
  split; [split|split; [|split]].
  - intros Hrun.
    destruct (default (VStr (lit "Unknown")) (d !! lit "detected_error"))
      as [| | | |s| |] eqn:Hread;
      try (rewrite show_error_type_not_str in Hrun
             by (intros s; by rewrite Hread);
           discriminate Hrun).
    exists s. split; [reflexivity|].
    rewrite (show_error_type_str d s st Hread) in Hrun.
    case_bool_decide; [done|].
    exfalso. injection Hrun as Hev.
    apply app_inv_head in Hev. discriminate Hev.
  - intros (s & Hread & Hlow).
    rewrite (show_error_type_str d s st Hread).
    by rewrite bool_decide_eq_true_2.
  - intros s Hcase Hd.
    rewrite (show_error_type_str d s st) by (by rewrite Hd).
    rewrite bool_decide_eq_true_2; [done|].
    rewrite py_lower_ascii; [done|].
    eapply casing_is_ascii; [exact Hcase | apply is_ascii_none].
  - intros Hd.
    rewrite (show_error_type_str d (lit "Unknown") st) by (by rewrite Hd).
    rewrite bool_decide_eq_false_2; [done|].
    rewrite py_lower_ascii by apply is_ascii_Unknown. by vm_compute.
  - unfold error_categories. intros Hin.
    repeat (apply elem_of_cons in Hin as [Hin|Hin]; [by vm_compute in Hin|]).
    by apply elem_of_nil in Hin.
Qed.

(** C10: when the decoded mapping has no [corrected_text] key, the value
    bound to [corrected] is the input text itself; a display that runs to
    its end has drawn the corrected-text panel with the input text and has
    sent, for every rewrite button pressed, that button's fixed
    instruction followed by the input text, verbatim; and nothing on the
    page or sent to the endpoint, however the display ends, uses any other
    text as the corrected one. *)
Theorem C10_missing_corrected_text_is_input svc w d st :
  d !! lit "corrected_text" = None →
  py_get (VDict d) (lit "corrected_text") (VStr (text_input w)) st
  = (inr (VStr (text_input w)), st)
  ∧ (∀ st', StBox (CorrectedBox (auto_correct w)) (text_input w)
            ∈ screen (show_comparison w (VStr (text_input w)) st').2)
  ∧ (∀ r, rewrite_prompt r (VStr (text_input w))
          = prompt_prefix r ++ text_input w)
  ∧ draws (corrected_is (text_input w)) st
      (show_results svc w (VDict d) st).2
  ∧ ((show_results svc w (VDict d) st).1 = inr tt →
     ∃ evs,
       screen (show_results svc w (VDict d) st).2 = screen st ++ evs
       ∧ StBox (CorrectedBox (auto_correct w)) (text_input w) ∈ evs
       ∧ ∀ r, pressed r w = true →
              LlmInvoke (prompt_prefix r ++ text_input w) ∈ evs).
Proof.
  intros Hd. split; [by apply py_get_absent|]. split; [|split; [|split]].
  - intros st'. rewrite show_comparison_str. simpl.
    rewrite !elem_of_app, !elem_of_cons. auto.
  - intros r. unfold rewrite_prompt. by rewrite py_str_str.
  - revert st. change (ensures (draws (corrected_is (text_input w)))
                         (show_results svc w (VDict d))).
    unfold show_results, py_get. rewrite Hd. simpl default.
    apply draws_bind; [apply draws_show_stats | intros _].
    apply draws_bind; [apply draws_show_error_type | intros _].
    apply draws_bind; [apply draws_show_tone_info | intros _].
    apply draws_bind_ret.
    apply draws_bind; [by apply draws_show_comparison | intros _].
    repeat (apply draws_bind; [apply draws_show_list | intros _]).
    apply draws_paraphrasing.
  - by apply show_results_uses_input.
Qed.

End Claims.

(** ** The model on concrete inputs *)

Example split_skips_runs_of_whitespace :
  py_split (lit "  kal   milte hai ") = [lit "kal"; lit "milte"; lit "hai"].
Proof. reflexivity. Qed.

Example split_on_no_break_space :
  py_split (lit "kal" ++ [0xa0]%N ++ lit "milte") = [lit "kal"; lit "milte"].
Proof. reflexivity. Qed.

Example fallback_counts :
  let r := fallback_record (lit "Hello world. How are you?  ok") in
  word_count r = 6 ∧ sentence_count r = 2.
Proof. by vm_compute. Qed.

Example fallback_sentence_floor :
  sentence_count (fallback_record (lit "kal milte hai")) = 1.
Proof. by vm_compute. Qed.

Example whitespace_only_is_sent :
  (run_from (run_script (sample_env failing)
               (sample_widgets KeepOriginal (lit " "))) ∅).2.(screen) !! 0%nat
  = Some (ChainInvoke (lit " ")).
Proof. by vm_compute. Qed.

Example absent_counts_read_as_na :
  (lit "word_count", VInt 0) ∈ schema_defaults
  ∧ screen (show_stats (VDict ∅) {| session := ∅; screen := [] |}).2 !! 0%nat
    = Some (StMetric ([0x1f4ca]%N ++ lit " Words") (VStr (lit "N/A"))).
Proof. split; [set_solver | by vm_compute]. Qed.

Example unhashable_tone_halts :
  (show_tone_info (sample_widgets KeepOriginal (lit "kal"))
     (VDict {[ lit "tone" := VList [VStr (lit "Formal")] ]})
     {| session := ∅; screen := [] |}).1
  = inl (Uncaught TypeError).
Proof. by vm_compute. Qed.

Example list_under_word_count_halts :
  show_stats (VDict {[ lit "word_count" := VList [VInt 3] ]})
    {| session := ∅; screen := [] |}
  = (inl (Uncaught TypeError), {| session := ∅; screen := [] |}).
Proof. by vm_compute. Qed.

Example dict_under_readability_halts_after_three_metrics :
  (show_stats (VDict {[ lit "readability" := VDict ∅ ]})
     {| session := ∅; screen := [] |}).1 = inl (Uncaught TypeError)
  ∧ length (screen (show_stats (VDict {[ lit "readability" := VDict ∅ ]})
                      {| session := ∅; screen := [] |}).2) = 3%nat.
Proof. by vm_compute. Qed.

Example non_string_error_type_halts :
  (show_error_type
     (VDict {[ lit "detected_error" := VNone ]})
     {| session := ∅; screen := [] |}).1
  = inl (Uncaught AttributeError).
Proof. by vm_compute. Qed.

(** ** Instances of the theorems *)

Lemma C1_witness :
  let w := sample_widgets Formal (lit "kal milte hai. theek?") in
  analysis_text w ≠ text_input w
  ∧ (analyze failing w {| session := used_session; screen := [] |}).1
    = inr (to_dict (fallback_record (lit "kal milte hai. theek?"))).
Proof.
  intros w. split; [by vm_compute|].
  destruct (C1_fallback_on_exception failing w
              {| session := used_session; screen := [] |}
              (lit "Invalid json output")) as [Hrun _];
    [by vm_compute | reflexivity |].
  by rewrite Hrun.
Defined.

Lemma C4_witness :
  (run_from (run_script (sample_env failing) (clear_widgets (lit "kal")))
     used_session).1 = inl RerunScript
  ∧ cleared used_session !! "formal_version" = Some VNone.
Proof.
  destruct (C4_slots_empty_after_clear_and_at_analysis_start
              (sample_env failing) failing (clear_widgets (lit "kal"))
              used_session RFormal) as (Hrun & Hslot & _);
    [reflexivity | reflexivity | reflexivity |].
  split; [by rewrite Hrun | exact Hslot].
Defined.

Lemma C5_witness :
  session (rewrite_handler failing RFormal (VStr (lit "kal milte hain"))
             {| session := used_session; screen := [] |}).2
  = used_session.
Proof.
  destruct (C5_failed_rewrite_keeps_slots failing RFormal
              (VStr (lit "kal milte hain"))
              {| session := used_session; screen := [] |}
              (lit "connection refused")) as (_ & _ & Hsession & _);
    [reflexivity|].
  exact Hsession.
Defined.

Lemma C6_witness :
  screen (run_from (run_script (sample_env (answering VNone))
                      (sample_widgets KeepOriginal [])) used_session).2
  = [empty_input_notice].
Proof.
  destruct (C6_empty_input_short_circuits (sample_env (answering VNone))
              (answering VNone) (sample_widgets KeepOriginal [])
              used_session) as (_ & Hpage & _);
    [reflexivity | reflexivity | reflexivity | reflexivity | reflexivity |].
  exact Hpage.
Defined.


Lemma C8_witness :
  used_session !! "formal_version"
  = Some (VStr (lit "Kindly attend the meeting."))
  ∧ session (run_from (run_script (sample_env failing)
                         (sample_widgets Casual [])) used_session).2
    !! "formal_version" = Some VNone.
Proof.
  split; [reflexivity|].
  destruct (C8_empty_submission_erases_rewrites (sample_env failing) failing
              (sample_widgets Casual []) used_session RFormal)
    as (Hslot & _);
    [reflexivity | reflexivity | reflexivity | reflexivity | reflexivity |].
  exact Hslot.
Defined.

Lemma C10_witness :
  LlmInvoke (prompt_prefix RFormal ++ lit "kal milte hai")
  ∈ screen (show_results failing (formal_pressed (lit "kal milte hai"))
              (VDict no_corrected) {| session := ∅; screen := [] |}).2
  ∧ StBox (CorrectedBox true) (lit "kal milte hai")
    ∈ screen (show_results failing (formal_pressed (lit "kal milte hai"))
                (VDict no_corrected) {| session := ∅; screen := [] |}).2.
Proof.
  destruct (C10_missing_corrected_text_is_input failing
              (formal_pressed (lit "kal milte hai"))
              no_corrected {| session := ∅; screen := [] |})
    as (_ & _ & _ & _ & Hdrawn); [reflexivity|].
  destruct Hdrawn as (evs & Hscreen & Hbox & Hprompts); [by vm_compute|].
  rewrite Hscreen. split.
  - apply elem_of_app. right. by apply (Hprompts RFormal).
  - apply elem_of_app. by right.
Defined.

(** ** Where the written claims and the script part *)



(** * Further properties of the script *)

(** ** The text sent for analysis *)

Lemma tone_tag_nonempty t : tone_tag t ≠ [].
Proof. by destruct t. Qed.

Lemma analysis_text_keep w :
  target_tone w = KeepOriginal → analysis_text w = text_input w.
Proof. intros Ht. unfold analysis_text. by rewrite Ht. Qed.

Lemma analysis_text_other w :
  target_tone w ≠ KeepOriginal →
  analysis_text w = tone_tag (target_tone w) ++ text_input w.
Proof.
  intros Ht. unfold analysis_text, tone_tag.
  destruct (target_tone w); [done|..]; by rewrite <- !app_assoc.
Qed.

(** X1: the text sent to the chain always ends with the input text, and it
    is the input text itself exactly when the tone selector is on "Keep
    Original"; under any other tone the bracketed tag comes first. *)
Theorem X1_analysis_text_is_tag_then_input w :
  analysis_text w
  = (if bool_decide (target_tone w = KeepOriginal) then []
     else tone_tag (target_tone w)) ++ text_input w
  ∧ (analysis_text w = text_input w ↔ target_tone w = KeepOriginal).
Proof.
  case_bool_decide as Ht.
  - rewrite analysis_text_keep by done. by split.
  - rewrite analysis_text_other by done. split; [reflexivity|].
    split; [|done]. intros Heq. exfalso.
    apply (tone_tag_nonempty (target_tone w)).
    apply (app_inv_tail (text_input w)). by rewrite Heq.
Qed.

(** X2: the tag is not told apart from typed text: an input that starts
    with the tag of a tone, analysed under "Keep Original", sends the same
    text as the rest of that input analysed under that tone, and so binds
    the same [result] whenever the chain returns. *)
Theorem X2_typed_tag_sends_the_same_request svc w t text st v :
  t ≠ KeepOriginal →
  chain_invoke svc (analysis_text (with_request w t text)) = Returned v →
  analysis_text (with_request w KeepOriginal (tone_tag t ++ text))
  = analysis_text (with_request w t text)
  ∧ analyze svc (with_request w KeepOriginal (tone_tag t ++ text)) st
    = analyze svc (with_request w t text) st.
Proof.
  intros Ht Hret.
  assert (analysis_text (with_request w KeepOriginal (tone_tag t ++ text))
          = analysis_text (with_request w t text)) as Heq.
  { rewrite analysis_text_keep by done. by rewrite analysis_text_other. }
  split; [exact Heq|].
  rewrite (analyze_returned _ _ _ v) by (by rewrite Heq).
  by rewrite (analyze_returned _ _ _ v), Heq.
Qed.

(** ** The counts of the fallback record *)

Lemma token_starts_bound b s :
  (2 * token_starts b s <= length s + (if b then 1 else 0))%nat.
Proof.
  revert b. induction s as [|c rest IH]; intros b; simpl.
  - destruct b; lia.
  - specialize (IH (is_space c)).
    destruct b, (is_space c); simpl in *; lia.
Qed.

Lemma token_count_zero s :
  token_count s = 0%nat ↔ Forall (λ c, is_space c = true) s.
Proof.
  unfold token_count. induction s as [|c rest IH]; simpl.
  - split; [constructor | done].
  - destruct (is_space c) eqn:Hc; simpl.
    + rewrite IH. split; [by constructor | by inversion 1].
    + split; [lia | inversion 1; congruence].
Qed.

Lemma terminator_count_bound s : (terminator_count s <= length s)%nat.
Proof. unfold terminator_count. apply length_filter. Qed.

(** X3: in the record built when the chain raises, the word count lies
    between 0 and half the length of the text rounded up, and is 0 exactly
    when every code point of the text is whitespace; the sentence count is
    at least 1 and at most the length of the text (or 1). *)
Theorem X3_fallback_counts_are_bounded T :
  let words := py_len (py_split T) in
  let sentences :=
    py_or (py_count full_stop T + py_count bang T + py_count question_mark T)
      1 in
  (∃ d, fallback T = VDict d
        ∧ d !! lit "word_count" = Some (VInt words)
        ∧ d !! lit "sentence_count" = Some (VInt sentences))
  ∧ 0 <= words ∧ 2 * words <= py_len T + 1
  ∧ (words = 0 ↔ Forall (λ c, is_space c = true) T)
  ∧ 1 <= sentences ∧ sentences <= Z.max 1 (py_len T).
Proof.
  intros words sentences. subst words sentences.
  split; [eexists; by repeat split|].
  rewrite terminators_sum, py_or_floor by lia.
  unfold py_len. rewrite py_split_token_count.
  pose proof (token_starts_bound true T) as Hw.
  pose proof (terminator_count_bound T) as Hs.
  fold (token_count T) in Hw. simpl in Hw.
  split; [lia|]. split; [lia|]. split; [|lia].
  rewrite <- token_count_zero. lia.
Qed.

(** ** The list panels *)

Lemma add_events_nil st : add_events [] st = st.
Proof. destruct st. unfold add_events. simpl. by rewrite app_nil_r. Qed.

Lemma emit_run e st : emit e st = (inr tt, add_events [e] st).
Proof. reflexivity. Qed.

Section Panels.
Context `{RT : PyRuntime}.

Lemma for_enumerate_items k l : ∀ i0 st,
  for_enumerate i0 l (λ i x, emit (StItem k i (py_str x))) st
  = (inr tt,
     add_events (imap (λ j x, StItem k (Z.of_nat j + i0) (py_str x)) l) st).
Proof.
  induction l as [|x rest IH]; intros i0 st.
  - by rewrite add_events_nil.
  - simpl for_enumerate. rewrite bind_run, emit_run. cbv beta iota.
    rewrite IH. f_equal. unfold add_events. simpl.
    rewrite <- app_assoc. simpl.
    do 3 f_equal. apply imap_ext. intros j y _. simpl. f_equal. lia.
Qed.

Lemma show_list_entries enabled key k d l st :
  d !! key = Some (VList l) →
  show_list enabled key k (VDict d) st
  = (inr tt, add_events (if enabled then numbered k l else []) st).
Proof.
  intros Hkey. unfold show_list, py_get. rewrite Hkey.
  destruct enabled; cbv beta iota; [|by rewrite add_events_nil].
  unfold when, mbind, script_bind, mret, script_ret. cbn [from_option id].
  destruct l as [|x rest].
  - by rewrite add_events_nil.
  - cbn [truthy isinstance_list andb].
    assert ((0 <? py_len (x :: rest)) = true) as ->.
    { apply Z.ltb_lt. unfold py_len. simpl length. lia. }
    apply for_enumerate_items.
Qed.

(** X4: a list panel that is switched on and finds a list under its key
    draws one item per entry, in the order of the list and numbered from
    1, and ends normally; switched off, or on an empty list, it draws
    nothing. *)
Theorem X4_list_panel_numbers_entries_in_order enabled key k d l st :
  d !! key = Some (VList l) →
  show_list enabled key k (VDict d) st
  = (inr tt, add_events (if enabled then numbered k l else []) st)
  ∧ length (numbered k l) = length l
  ∧ ∀ j x, l !! j = Some x →
           numbered k l !! j = Some (StItem k (Z.of_nat j + 1) (py_str x)).
Proof.
  intros Hkey. split; [by apply show_list_entries|]. split.
  - unfold numbered. apply length_imap.
  - intros j x Hj. unfold numbered. rewrite list_lookup_imap, Hj. done.
Qed.

End Panels.

(** ** How the display of a result ends *)

Section Outcome.
Context `{RT : PyRuntime}.

Lemma show_tone_info_off w result st :
  show_tone w = false → show_tone_info w result st = (inr tt, st).
Proof. intros Hoff. unfold show_tone_info. by rewrite Hoff. Qed.

Lemma show_tone_info_unhashable w d st :
  show_tone w = true →
  hashable (default (VStr (lit "Neutral")) (d !! lit "tone")) = false →
  show_tone_info w (VDict d) st = (inl (Uncaught TypeError), st).
Proof.
  intros Hon Htone. unfold show_tone_info, py_get. rewrite Hon.
  unfold when, mbind, script_bind, mret, script_ret, tone_colors_get.
  by destruct (default (VStr (lit "Neutral")) (d !! lit "tone")).
Qed.

(** Everything [show_results] does after the tone line. *)
Lemma display_tail_completes svc w d :
  completes (λ _, True)
    (corrected ← py_get (VDict d) (lit "corrected_text") (VStr (text_input w));
     show_comparison w corrected ;;
     show_list (show_explanations w) (lit "explanations") ExplanationItem
       (VDict d) ;;
     show_list (show_vocabulary w) (lit "vocabulary_enhancements")
       VocabularyItem (VDict d) ;;
     show_list (show_suggestions w) (lit "suggestions") SuggestionItem
       (VDict d) ;;
     paraphrasing svc w corrected)
    slots_bound.
Proof.
  apply completes_bind with (λ _, True);
    [by apply completes_py_get | intros corrected].
  apply completes_bind with (λ _, True);
    [by apply completes_show_comparison | intros _].
  repeat (apply completes_bind with (λ _, True);
          [by apply completes_show_list | intros _]).
  apply completes_paraphrasing.
Qed.

Lemma show_stats_rejects d st :
  metrics_ok d = false →
  (show_stats (VDict d) st).1 = inl (Uncaught TypeError).
Proof.
  unfold metrics_ok, show_stats, py_get, st_metric. intros Hbad.
  cbv [mbind script_bind mret script_ret halt_with emit].
  destruct (metric_value (default (VStr (lit "N/A")) (d !! lit "word_count")));
    [|reflexivity].
  destruct (metric_value
              (default (VStr (lit "N/A")) (d !! lit "sentence_count")));
    [|reflexivity].
  destruct (metric_value
              (default (VStr (lit "Medium")) (d !! lit "readability")));
    [discriminate Hbad | reflexivity].
Qed.

(** X5: displaying a decoded mapping ends as follows: with a [TypeError]
    from [st.metric] when the value read for [word_count],
    [sentence_count] or [readability] is a list or a dict; otherwise with
    an [AttributeError] when the value read for [detected_error] is not a
    [str]; otherwise with a [TypeError] when tone detection is on and the
    value read for [tone] is a list or a dict; and normally in every other
    case.  A result that is not a mapping raises [AttributeError] before
    anything is drawn. *)
Theorem X5_display_outcome svc w st :
  (∀ d, (show_results svc w (VDict d) st).1 = display_outcome w d)
  ∧ (∀ result, (∀ d, result ≠ VDict d) →
       show_results svc w result st = (inl (Uncaught AttributeError), st)).
Proof.
  split.
  - intros d. unfold show_results, display_outcome. rewrite bind_run.
    destruct (metrics_ok d) eqn:Hmetrics; cbn [negb].
    2:{ pose proof (show_stats_rejects d st Hmetrics) as Hstats.
        destruct (show_stats (VDict d) st) as [[h|[]] st1]; [|done].
        simpl in Hstats. by rewrite Hstats. }
    destruct (completes_show_stats (λ _, True) (λ _ _ _, I) d Hmetrics st I)
      as ([] & st1 & -> & _).
    rewrite bind_run.
    destruct (default (VStr (lit "Unknown")) (d !! lit "detected_error"))
      as [| | | |s| |] eqn:Hread;
      try (rewrite show_error_type_not_str
             by (intros s; by rewrite Hread); reflexivity).
    rewrite (show_error_type_str d s st1 Hread), bind_run.
    set (st2 := add_events _ st1). clearbody st2.
    destruct (show_tone w) eqn:Htone_on.
    + destruct (hashable (default (VStr (lit "Neutral")) (d !! lit "tone")))
        eqn:Htone.
      * destruct (completes_show_tone_info (λ _, True) (λ _ _ _, I) w d
                    Htone st2 I) as ([] & st3 & -> & _).
        destruct (display_tail_completes svc w d st3 I)
          as ([] & st4 & -> & _).
        reflexivity.
      * by rewrite show_tone_info_unhashable.
    + rewrite show_tone_info_off by done.
      destruct (display_tail_completes svc w d st2 I)
        as ([] & st3 & -> & _).
      reflexivity.
  - intros result Hnot. destruct result; try reflexivity.
    by destruct (Hnot d).
Qed.

End Outcome.

(** ** What the display may draw *)

Section Kinds.
Context `{RT : PyRuntime}.
Variable w : widgets.

Let allowed (e : event) : Prop := displayable w e = true.

Lemma allowed_show_stats result :
  ensures (draws allowed) (show_stats result).
Proof. unfold show_stats. draws; done. Qed.

Lemma allowed_show_error_type result :
  ensures (draws allowed) (show_error_type result).
Proof.
  unfold show_error_type. draws.
  - unfold lower_is_none. destruct x; draws.
  - destruct x0; unfold no_errors_notice, issue_notice; draws; done.
Qed.

Lemma allowed_show_tone_info result :
  ensures (draws allowed) (show_tone_info w result).
Proof.
  unfold show_tone_info. destruct (show_tone w) eqn:Hon; [|apply draws_ret].
  draws; [|by unfold allowed; simpl].
  unfold tone_colors_get. destruct x; simpl; draws.
Qed.

Lemma allowed_show_comparison corrected :
  ensures (draws allowed) (show_comparison w corrected).
Proof.
  unfold show_comparison.
  apply draws_bind; [by apply draws_emit | intros _].
  destruct (auto_correct w) eqn:Hauto.
  - apply draws_bind; [|intros _].
    + apply draws_emit. unfold allowed. simpl. by rewrite Hauto.
    + destruct (copy_button w) eqn:Hcopy; [|apply draws_ret].
      apply draws_emit. unfold allowed. simpl. by rewrite Hauto, Hcopy.
  - apply draws_emit. unfold allowed. simpl. by rewrite Hauto.
Qed.

Lemma allowed_show_list enabled key k result :
  (enabled = true → ∀ i c, allowed (StItem k i c)) →
  ensures (draws allowed) (show_list enabled key k result).
Proof.
  intros Hk. unfold show_list. destruct enabled; [|apply draws_ret].
  draws. destruct x; draws. by apply Hk.
Qed.

Lemma pressed_any r : pressed r w = true → any_pressed w = true.
Proof.
  unfold any_pressed. destruct r; simpl; intros ->;
    by rewrite ?orb_true_r.
Qed.

Lemma allowed_rewrite_column svc r corrected :
  ensures (draws allowed) (rewrite_column svc w r corrected).
Proof.
  unfold rewrite_column. apply draws_bind; [|intros _].
  - destruct (pressed r w) eqn:Hpressed; [|apply draws_ret].
    apply pressed_any in Hpressed. unfold when, rewrite_handler.
    apply draws_bind; [by apply draws_emit | intros _].
    destruct (llm_invoke svc _); [apply draws_assign|].
    by apply draws_emit.
  - draws. unfold allowed. by destruct r.
Qed.

Lemma allowed_paraphrasing svc corrected :
  ensures (draws allowed) (paraphrasing svc w corrected).
Proof.
  unfold paraphrasing.
  apply draws_bind; [unfold init_slots; draws | intros _].
  repeat (apply draws_bind; [apply allowed_rewrite_column | intros _]).
  apply allowed_rewrite_column.
Qed.

Lemma allowed_show_results svc result :
  ensures (draws allowed) (show_results svc w result).
Proof.
  unfold show_results.
  apply draws_bind; [apply allowed_show_stats | intros _].
  apply draws_bind; [apply allowed_show_error_type | intros _].
  apply draws_bind; [apply allowed_show_tone_info | intros _].
  apply draws_bind; [apply draws_py_get | intros corrected].
  apply draws_bind; [apply allowed_show_comparison | intros _].
  repeat (apply draws_bind; [by apply allowed_show_list | intros _]).
  apply allowed_paraphrasing.
Qed.

(** X6: whatever the result, its display draws an optional panel only when
    that panel's toggle is on (tone, explanations, vocabulary,
    suggestions), the copy block only with auto-correct on and the copy
    button pressed, the corrected text only in the style the auto-correct
    toggle selects, a rewrite prompt or failure notice only when a rewrite
    button is pressed, and never a call to the analysis chain. *)
Theorem X6_display_respects_toggles svc result st :
  draws (λ e, displayable w e = true) st (show_results svc w result st).2.
Proof. apply allowed_show_results. Qed.

End Kinds.

(** ** Calls to the analysis chain *)

Lemma displayable_not_chain w evs :
  Forall (λ e, displayable w e = true) evs →
  filter (λ e, is_chain_call e = true) evs = [].
Proof.
  induction 1 as [|e evs He _ IH]; [reflexivity|].
  rewrite filter_cons, IH. by destruct e.
Qed.

Section Calls.
Context `{RT : PyRuntime}.

(** The page of an analysis with text: the call, then displayable events. *)
Lemma analyze_body_screen svc w st :
  text_input w ≠ [] →
  ∃ evs, screen (analyze_body svc w st).2
         = screen st ++ ChainInvoke (analysis_text w) :: evs
         ∧ Forall (λ e, displayable w e = true) evs.
Proof.
  intros Htext. unfold analyze_body.
  destruct (text_input w) as [|c T] eqn:HT; [done|].
  cbn [truthy negb]. rewrite bind_run.
  destruct (chain_invoke svc (analysis_text w)) as [v|msg] eqn:Hcall.
  - rewrite (analyze_returned _ _ _ _ Hcall).
    destruct (allowed_show_results w svc v
                (add_events [ChainInvoke (analysis_text w)] st))
      as (evs & Hscreen & Hall).
    exists evs. split; [|exact Hall].
    rewrite Hscreen. simpl. by rewrite <- app_assoc.
  - rewrite (analyze_raised _ _ _ _ Hcall).
    destruct (allowed_show_results w svc (fallback (text_input w))
                (add_events [ChainInvoke (analysis_text w);
                   StWarning (warning_sign
                              ++ lit " Using simplified analysis mode")] st))
      as (evs & Hscreen & Hall).
    exists (StWarning (warning_sign ++ lit " Using simplified analysis mode")
            :: evs).
    split; [|by constructor].
    rewrite Hscreen. simpl. by rewrite <- app_assoc.
Qed.

(** X7: a run calls the analysis chain exactly once when the key is set,
    the services came up, Clear is not pressed, Analyze is pressed and the
    text is not empty, and not at all otherwise; no result, no toggle and
    no failure makes it call again. *)
Theorem X7_one_analysis_call_per_run env w ss :
  length (filter (λ e, is_chain_call e = true)
            (screen (run_from (run_script env w) ss).2))
  = if has_api_key env && bool_decide (is_Some (startup env))
       && negb (clear_button w) && analyze_button w
       && truthy (VStr (text_input w))
    then 1%nat else 0%nat.
Proof.
  unfold run_from, run_script.
  destruct (has_api_key env); [|reflexivity].
  destruct (startup env) as [svc|]; [|reflexivity].
  rewrite bool_decide_eq_true_2 by (by eexists).
  destruct (clear_button w); [reflexivity|].
  destruct (analyze_button w); [|reflexivity].
  cbn [when negb andb]. rewrite bind_run. cbn [mret script_ret].
  rewrite analyze_handler_run. cbn [session screen].
  destruct (text_input w) as [|c T] eqn:HT.
  - by rewrite analyze_body_empty.
  - destruct (analyze_body_screen svc w
                {| session := cleared ss; screen := [] |})
      as (evs & -> & Hall); [by rewrite HT|].
    rewrite app_nil_l, filter_cons.
    by rewrite (displayable_not_chain w evs Hall).
Qed.

(** ** One column of the rewrite row *)

(** X8: in a column whose slot holds a value, a pressed button whose call
    returns stores the content in that slot and shows it at once if it is
    truthy (an empty completion shows no panel); a pressed button whose
    call raises shows the error and then the version stored before; a
    button that is not pressed sends nothing and shows the stored version.
    The column always ends normally. *)
Theorem X8_rewrite_column_stores_then_shows svc w r corrected st stored :
  session st !! slot r = Some stored →
  rewrite_column svc w r corrected st
  = if pressed r w then
      match llm_invoke svc (rewrite_prompt r corrected) with
      | Returned content =>
          (inr tt,
           {| session := <[slot r := content]> (session st);
              screen := screen st
                        ++ LlmInvoke (rewrite_prompt r corrected)
                           :: version_box r content |})
      | Raised msg =>
          (inr tt,
           add_events ([LlmInvoke (rewrite_prompt r corrected);
                        failure_notice r msg] ++ version_box r stored) st)
      end
    else (inr tt, add_events (version_box r stored) st).
Proof. apply rewrite_column_run. Qed.

(** ** The slots before the rewrite row *)

Lemma init_slot_lookup k k' ss :
  init_slot k ss !! k'
  = if decide (k = k') then Some (default VNone (ss !! k)) else ss !! k'.
Proof.
  unfold init_slot. case_bool_decide as Hk.
  - rewrite lookup_insert. case_decide; [by rewrite Hk | done].
  - case_decide as Heq; [|done]. subst k'.
    by destruct (ss !! k).
Qed.

(** X9: the three tests before the rewrite row bind every slot that is
    absent to [None] and leave a slot that holds a value, and every other
    key of the session, as they are; they draw nothing, end normally, and
    change nothing at all once the three slots are bound. *)
Theorem X9_init_slots_binds_without_overwriting st :
  (init_slots st).1 = inr tt
  ∧ screen (init_slots st).2 = screen st
  ∧ (∀ r, session (init_slots st).2 !! slot r
          = Some (default VNone (session st !! slot r)))
  ∧ (∀ k, (∀ r, k ≠ slot r) →
          session (init_slots st).2 !! k = session st !! k)
  ∧ (slots_bound st → init_slots st = (inr tt, st)).
Proof.
  rewrite init_slots_run. cbn [fst snd session screen].
  split; [done|]. split; [done|]. split; [|split].
  - intros r. rewrite !init_slot_lookup. by destruct r.
  - intros k Hk. rewrite !init_slot_lookup.
    pose proof (Hk RFormal). pose proof (Hk RCreative).
    pose proof (Hk RProfessional). simpl in *.
    by rewrite !decide_False by done.
  - intros Hbound. destruct st as [ss page]. f_equal. f_equal. simpl.
    destruct (Hbound RFormal) as [v1 H1], (Hbound RCreative) as [v2 H2],
      (Hbound RProfessional) as [v3 H3]. simpl in *.
    unfold init_slot.
    rewrite (bool_decide_eq_false_2 (ss !! "formal_version" = None))
      by (by rewrite H1).
    rewrite (bool_decide_eq_false_2 (ss !! "creative_version" = None))
      by (by rewrite H2).
    by rewrite (bool_decide_eq_false_2 (ss !! "professional_version" = None))
      by (by rewrite H3).
Qed.

End Calls.

(** ** The page of a well-formed result *)

Lemma add_events_add_events evs1 evs2 st :
  add_events evs2 (add_events evs1 st) = add_events (evs1 ++ evs2) st.
Proof. unfold add_events. simpl. by rewrite app_assoc. Qed.

Section Page.
Context `{RT : PyRuntime}.

Lemma show_stats_dict d st :
  metrics_ok d = true →
  show_stats (VDict d) st
  = (inr tt,
     add_events
       [StMetric ([0x1f4ca]%N ++ lit " Words")
          (default (VStr (lit "N/A")) (d !! lit "word_count"));
        StMetric ([0x1f4dd]%N ++ lit " Sentences")
          (default (VStr (lit "N/A")) (d !! lit "sentence_count"));
        StMetric ([0x1f3af]%N ++ lit " Clarity")
          (VStr (py_str (default (VInt 7) (d !! lit "clarity_score"))
                 ++ lit "/10"));
        StMetric ([0x1f4d6]%N ++ lit " Readability")
          (default (VStr (lit "Medium")) (d !! lit "readability"))] st).
Proof.
  unfold metrics_ok. intros Hok.
  apply andb_prop in Hok as [Hok Hreadability].
  apply andb_prop in Hok as [Hwords Hsentences].
  unfold show_stats, py_get, st_metric. step_script.
  rewrite Hwords, Hsentences, Hreadability.
  cbn [metric_value session screen]. by rewrite <- !app_assoc.
Qed.

Lemma show_tone_info_str w d s st :
  default (VStr (lit "Neutral")) (d !! lit "tone") = VStr s →
  show_tone_info w (VDict d) st
  = (inr tt,
     add_events
       (if show_tone w
        then [StInfo (default scales (tone_colors !! s)
                      ++ lit " **Detected Tone:** " ++ s)]
        else []) st).
Proof.
  intros Hs. unfold show_tone_info, py_get.
  destruct (show_tone w); cbv beta iota; [|by rewrite add_events_nil].
  unfold when, mbind, script_bind, mret, script_ret. rewrite Hs.
  unfold tone_colors_get, mret, script_ret. by rewrite py_str_str.
Qed.

Lemma show_results_schema svc w r st :
  show_results svc w (to_dict r) st
  = paraphrasing svc w (VStr (corrected_text r))
      (add_events (result_page w r) st).
Proof.
  unfold to_dict. set (d := list_to_map _).
  assert (d !! lit "word_count" = Some (VInt (word_count r))) as Hwc
    by reflexivity.
  assert (d !! lit "sentence_count" = Some (VInt (sentence_count r))) as Hsc
    by reflexivity.
  assert (d !! lit "clarity_score" = Some (VInt (clarity_score r))) as Hcs
    by reflexivity.
  assert (d !! lit "readability" = Some (VStr (readability r))) as Hrd
    by reflexivity.
  assert (d !! lit "detected_error" = Some (VStr (detected_error r))) as Hde
    by reflexivity.
  assert (d !! lit "tone" = Some (VStr (tone r))) as Htn by reflexivity.
  assert (d !! lit "corrected_text" = Some (VStr (corrected_text r))) as Hct
    by reflexivity.
  assert (d !! lit "explanations" = Some (VList (explanations r))) as Hex
    by reflexivity.
  assert (d !! lit "vocabulary_enhancements"
          = Some (VList (vocabulary_enhancements r))) as Hve by reflexivity.
  assert (d !! lit "suggestions" = Some (VList (suggestions r))) as Hsg
    by reflexivity.
  assert (metrics_ok d = true) as Hmetrics.
  { unfold metrics_ok. by rewrite Hwc, Hsc, Hrd. }
  clearbody d. unfold show_results.
  rewrite bind_run, show_stats_dict by done. cbv beta iota.
  rewrite bind_run, (show_error_type_str d (detected_error r))
    by (by rewrite Hde).
  cbv beta iota.
  rewrite bind_run, (show_tone_info_str w d (tone r)) by (by rewrite Htn).
  cbv beta iota.
  rewrite bind_run, (py_get_present d _ _ _ _ Hct). cbv beta iota.
  rewrite bind_run, show_comparison_str. cbv beta iota.
  rewrite bind_run, (show_list_entries _ _ _ d _ _ Hex). cbv beta iota.
  rewrite bind_run, (show_list_entries _ _ _ d _ _ Hve). cbv beta iota.
  rewrite bind_run, (show_list_entries _ _ _ d _ _ Hsg). cbv beta iota.
  rewrite !add_events_add_events, Hwc, Hsc, Hcs, Hrd.
  unfold result_page. cbn [from_option id]. by rewrite <- !app_assoc.
Qed.

(** X10: for a result that has the ten fields of the schema with their
    types, the display ends normally and the page up to the rewrite row is
    the four metrics, the success notice if [detected_error] lower-cases
    to "none" and the issue notice with its label otherwise, the tone line
    if its toggle is on, the two text panels, and the numbered
    explanations, vocabulary entries and suggestions that are switched on,
    in this order; the rewrite row then works on [corrected_text]. *)
Theorem X10_page_of_a_schema_result svc w r st :
  show_results svc w (to_dict r) st
  = paraphrasing svc w (VStr (corrected_text r))
      (add_events (result_page w r) st)
  ∧ (show_results svc w (to_dict r) st).1 = inr tt.
Proof.
  rewrite show_results_schema. split; [reflexivity|].
  destruct (completes_paraphrasing svc w (VStr (corrected_text r))
              (add_events (result_page w r) st) I) as ([] & st' & -> & _).
  reflexivity.
Qed.

Lemma lower_None : py_lower (lit "None") = lit "none".
Proof. rewrite py_lower_ascii; [done | by repeat constructor]. Qed.

(** X11: when the chain raises on a non-empty text, the run of the Analyze
    branch ends normally and the page is the call, the "simplified
    analysis" warning and then the page of the fallback record: its fifth
    line is the success notice "No errors detected", the corrected-text
    panel repeats the input, and no explanation or vocabulary item is
    drawn. *)
Theorem X11_failed_analysis_is_shown_as_no_errors svc w st msg :
  text_input w ≠ [] →
  chain_invoke svc (analysis_text w) = Raised msg →
  let page := result_page w (fallback_record (text_input w)) in
  analyze_body svc w st
  = paraphrasing svc w (VStr (text_input w))
      (add_events
         ([ChainInvoke (analysis_text w);
           StWarning (warning_sign ++ lit " Using simplified analysis mode")]
          ++ page) st)
  ∧ (analyze_body svc w st).1 = inr tt
  ∧ page !! 4%nat = Some no_errors_notice
  ∧ StBox (CorrectedBox (auto_correct w)) (text_input w) ∈ page
  ∧ Forall (λ e, ∀ i c, e ≠ StItem ExplanationItem i c
                        ∧ e ≠ StItem VocabularyItem i c) page.
Proof.
  intros Htext Hraise page.
  assert (analyze_body svc w st
          = paraphrasing svc w (VStr (text_input w))
              (add_events
                 ([ChainInvoke (analysis_text w);
                   StWarning (warning_sign
                              ++ lit " Using simplified analysis mode")]
                  ++ page) st)) as Hrun.
  { unfold analyze_body. destruct (text_input w) as [|c T] eqn:HT; [done|].
    cbn [truthy negb].
    rewrite bind_run, (analyze_raised _ _ _ _ Hraise), HT.
    rewrite fallback_is_record, show_results_schema.
    by rewrite add_events_add_events. }
  split; [exact Hrun|]. split; [|split; [|split]].
  - rewrite Hrun.
    by destruct (completes_paraphrasing svc w (VStr (text_input w))
                   (add_events
                      ([ChainInvoke (analysis_text w);
                        StWarning (warning_sign
                                   ++ lit " Using simplified analysis mode")]
                       ++ page) st) I) as ([] & st' & -> & _).
  - subst page. unfold result_page. cbn [detected_error fallback_record].
    by rewrite lower_None.
  - subst page. unfold result_page. cbn [corrected_text fallback_record].
    rewrite !elem_of_app, !elem_of_cons. auto 10.
  - subst page. unfold result_page.
    cbn [explanations vocabulary_enhancements suggestions detected_error
         fallback_record].
    rewrite lower_None.
    destruct (show_tone w), (auto_correct w), (copy_button w),
      (show_explanations w), (show_vocabulary w), (show_suggestions w);
      repeat constructor; discriminate.
Qed.

End Page.

(** ** What a run writes to the session *)

Lemma cleared_agree ss1 ss2 :
  (∀ k, (∀ r, k ≠ slot r) → ss1 !! k = ss2 !! k) →
  cleared ss1 = cleared ss2.
Proof.
  intros Hagree. apply map_eq. intros k. unfold cleared.
  destruct (decide (k = "professional_version")) as [->|H3];
    [by rewrite !lookup_insert_eq|].
  destruct (decide (k = "creative_version")) as [->|H2];
    [by rewrite !(lookup_insert_ne _ "professional_version"),
                !lookup_insert_eq|].
  destruct (decide (k = "formal_version")) as [->|H1];
    [by rewrite !(lookup_insert_ne _ "professional_version"),
                !(lookup_insert_ne _ "creative_version"),
                !lookup_insert_eq|].
  rewrite !lookup_insert_ne by done. apply Hagree. by intros [].
Qed.

Section Writes.
Context `{RT : PyRuntime}.
Variable R : relation app_state.
Hypothesis R_refl : ∀ st, R st st.
Hypothesis R_trans : ∀ st1 st2 st3, R st1 st2 → R st2 st3 → R st1 st3.
Hypothesis R_emit : ∀ e, ensures R (emit e).
Hypothesis R_clear : ∀ r, ensures R (assign (slot r) VNone).

Lemma writes_st_metric label value : ensures R (st_metric label value).
Proof.
  unfold st_metric.
  destruct (metric_value value); [apply R_emit | apply (ensures_halt _ R_refl)].
Qed.

(** Splits a goal [ensures R m] along the structure of [m]. *)
Ltac writes :=
  repeat first
    [ apply (ensures_ret _ R_refl)
    | apply writes_st_metric
    | apply (ensures_halt _ R_refl)
    | apply (ensures_py_get _ R_refl)
    | apply (ensures_not_in_session _ R_refl)
    | apply (ensures_read _ R_refl)
    | apply R_emit
    | apply (ensures_when _ R_refl)
    | apply (ensures_for_enumerate _ R_refl R_trans); intros ? ?
    | apply (ensures_bind _ R_trans); [|intros ?] ].

Lemma writes_reset_slots : ensures R reset_slots.
Proof.
  unfold reset_slots.
  apply (ensures_bind _ R_trans); [apply (R_clear RFormal) | intros _].
  apply (ensures_bind _ R_trans); [apply (R_clear RCreative) | intros _].
  apply (R_clear RProfessional).
Qed.

Lemma writes_clear_handler : ensures R clear_handler.
Proof.
  unfold clear_handler.
  apply (ensures_bind _ R_trans); [apply (R_clear RFormal) | intros _].
  apply (ensures_bind _ R_trans); [apply (R_clear RCreative) | intros _].
  apply (ensures_bind _ R_trans); [apply (R_clear RProfessional) | intros _].
  apply (ensures_halt _ R_refl).
Qed.

Lemma writes_init_slots : ensures R init_slots.
Proof.
  unfold init_slots.
  repeat (apply (ensures_bind _ R_trans); [|intros _]);
    try (apply (ensures_bind _ R_trans);
         [apply (ensures_not_in_session _ R_refl) | intros ?];
         apply (ensures_when _ R_refl)).
  - apply (R_clear RFormal).
  - apply (R_clear RCreative).
  - apply (R_clear RProfessional).
Qed.

Lemma writes_show_list enabled key k result :
  ensures R (show_list enabled key k result).
Proof. unfold show_list. writes. destruct x; writes. Qed.

Lemma writes_show_results svc w result :
  (∀ r corrected, ensures R (rewrite_column svc w r corrected)) →
  ensures R (show_results svc w result).
Proof.
  intros R_column. unfold show_results.
  apply (ensures_bind _ R_trans); [unfold show_stats; writes | intros _].
  apply (ensures_bind _ R_trans); [|intros _].
  { unfold show_error_type. writes.
    - unfold lower_is_none. destruct x; writes.
    - destruct x0; writes. }
  apply (ensures_bind _ R_trans); [|intros _].
  { unfold show_tone_info. writes.
    unfold tone_colors_get. destruct x; simpl; writes. }
  apply (ensures_bind _ R_trans);
    [apply (ensures_py_get _ R_refl) | intros corrected].
  apply (ensures_bind _ R_trans); [|intros _].
  { unfold show_comparison. writes. destruct (auto_correct w); writes. }
  repeat (apply (ensures_bind _ R_trans);
          [apply writes_show_list | intros _]).
  unfold paraphrasing.
  apply (ensures_bind _ R_trans); [apply writes_init_slots | intros _].
  repeat (apply (ensures_bind _ R_trans); [apply R_column | intros _]).
  apply R_column.
Qed.

Lemma writes_run_script env w :
  (∀ svc, startup env = Some svc → analyze_button w = true →
          ∀ r corrected, ensures R (rewrite_column svc w r corrected)) →
  ensures R (run_script env w).
Proof.
  intros R_column. unfold run_script.
  destruct (has_api_key env); simpl; [|writes].
  destruct (startup env) as [svc|]; [|writes].
  apply (ensures_bind _ R_trans); [|intros _].
  - apply (ensures_when _ R_refl), writes_clear_handler.
  - destruct (analyze_button w) eqn:Hanalyze;
      [|apply (ensures_ret _ R_refl)].
    unfold when, analyze_handler.
    apply (ensures_bind _ R_trans); [apply writes_reset_slots | intros _].
    unfold analyze_body.
    destruct (negb (truthy (VStr (text_input w)))); [apply R_emit|].
    apply (ensures_bind _ R_trans);
      [|intros result; apply writes_show_results; by apply R_column].
    unfold analyze.
    apply (ensures_bind _ R_trans); [apply R_emit | intros _].
    destruct (chain_invoke svc (analysis_text w)); writes.
Qed.

End Writes.

Section Footprint.
Context `{RT : PyRuntime}.
Variable svc : services.

Lemma footprint_refl st : footprint svc st st.
Proof. intros r v Hv. by left. Qed.

Lemma footprint_trans st1 st2 st3 :
  footprint svc st1 st2 → footprint svc st2 st3 → footprint svc st1 st3.
Proof.
  intros Hs1 Hs2 r v Hv. destruct (Hs2 r v Hv) as [Hv2|Hllm]; [|by right].
  by apply Hs1.
Qed.

Lemma footprint_emit e : ensures (footprint svc) (emit e).
Proof. intros st r v Hv. by left. Qed.

Lemma footprint_assign r v :
  from_llm svc v → ensures (footprint svc) (assign (slot r) v).
Proof.
  intros Hv st r' v' Hv'. simpl in Hv'.
  destruct (decide (slot r = slot r')) as [Heq|Hne].
  - rewrite Heq, lookup_insert_eq in Hv'. injection Hv' as <-. by right.
  - rewrite lookup_insert_ne in Hv' by done. by left.
Qed.

Lemma footprint_clear r : ensures (footprint svc) (assign (slot r) VNone).
Proof. apply footprint_assign. by left. Qed.

Lemma footprint_rewrite_column w r corrected :
  ensures (footprint svc) (rewrite_column svc w r corrected).
Proof.
  unfold rewrite_column.
  apply (ensures_bind _ footprint_trans); [|intros _].
  - apply (ensures_when _ footprint_refl). unfold rewrite_handler.
    apply (ensures_bind _ footprint_trans);
      [apply footprint_emit | intros _].
    destruct (llm_invoke svc (rewrite_prompt r corrected)) as [content|msg]
      eqn:Hcall; [|apply footprint_emit].
    apply footprint_assign. right. by eexists.
  - apply (ensures_bind _ footprint_trans);
      [apply (ensures_read _ footprint_refl) | intros version].
    apply (ensures_when _ footprint_refl), footprint_emit.
Qed.

Lemma footprint_run_script env w :
  startup env = Some svc → ensures (footprint svc) (run_script env w).
Proof.
  intros Hsvc.
  apply (writes_run_script _ footprint_refl footprint_trans footprint_emit
           footprint_clear).
  intros svc' Hsvc' _. assert (svc' = svc) as -> by congruence.
  apply footprint_rewrite_column.
Qed.

(** X12: over any sequence of runs, whether a run ends normally, stops,
    reruns or raises, and whatever Streamlit binds for its widgets in
    between, a slot never holds anything but what it held at the start,
    [None], or the content of a completion that [llm.invoke] returned. *)
Theorem X12_session_holds_only_returned_rewrites env steps ss :
  startup env = Some svc →
  Forall (λ i, keeps_slots (binds i)) steps →
  ∀ r v, run_many env steps ss !! slot r = Some v →
         ss !! slot r = Some v ∨ from_llm svc v.
Proof.
  intros Hsvc Hkeeps. revert ss.
  induction Hkeeps as [|i rest Hi _ IH]; intros ss r v Hv.
  - by left.
  - simpl in Hv. destruct (IH _ r v Hv) as [Hprev|Hllm]; [|by right].
    rewrite Hi in Hprev.
    by apply (footprint_run_script env (values i) Hsvc
                {| session := ss; screen := [] |}).
Qed.

End Footprint.

(** ** Runs in which one button is pressed *)

Lemma only_cleared_refl st : only_cleared st st.
Proof. intros r v Hv. by left. Qed.

Lemma only_cleared_trans st1 st2 st3 :
  only_cleared st1 st2 → only_cleared st2 st3 → only_cleared st1 st3.
Proof.
  intros H12 H23 r v Hv. destruct (H23 r v Hv) as [Hv2 | ->]; [|by right].
  by apply H12.
Qed.

Lemma only_cleared_emit e : ensures only_cleared (emit e).
Proof. intros st r v Hv. by left. Qed.

Lemma only_cleared_assign k : ensures only_cleared (assign k VNone).
Proof.
  intros st r v Hv. simpl in Hv. destruct (decide (k = slot r)) as [->|Hne].
  - rewrite lookup_insert_eq in Hv. injection Hv as <-. by right.
  - rewrite lookup_insert_ne in Hv by done. by left.
Qed.

Lemma one_button_analyze w :
  one_button w = true → analyze_button w = true → any_pressed w = false.
Proof.
  unfold one_button, any_pressed. intros Hone Hanalyze.
  rewrite Hanalyze in Hone.
  by destruct (clear_button w), (copy_button w), (formal_btn w),
    (creative_btn w), (professional_btn w).
Qed.

Lemma not_pressed w r : any_pressed w = false → pressed r w = false.
Proof.
  unfold any_pressed. intros Hnone.
  apply orb_false_elim in Hnone as [Hnone H3].
  apply orb_false_elim in Hnone as [H1 H2]. by destruct r.
Qed.

Section OneButton.
Context `{RT : PyRuntime}.

Lemma only_cleared_rewrite_column svc w r corrected :
  any_pressed w = false →
  ensures only_cleared (rewrite_column svc w r corrected).
Proof.
  intros Hnone. unfold rewrite_column. rewrite (not_pressed w r Hnone).
  apply (ensures_bind _ only_cleared_trans);
    [apply (ensures_ret _ only_cleared_refl) | intros _].
  apply (ensures_bind _ only_cleared_trans);
    [apply (ensures_read _ only_cleared_refl) | intros version].
  apply (ensures_when _ only_cleared_refl), only_cleared_emit.
Qed.

Lemma only_cleared_run_script env w :
  one_button w = true → ensures only_cleared (run_script env w).
Proof.
  intros Hone.
  apply (writes_run_script _ only_cleared_refl only_cleared_trans
           only_cleared_emit (λ r, only_cleared_assign (slot r))).
  intros svc _ Hanalyze r corrected.
  apply only_cleared_rewrite_column. by apply one_button_analyze.
Qed.

Lemma no_prompt_in_run env w ss :
  one_button w = true →
  Forall (λ e, ∀ p, e ≠ LlmInvoke p)
    (screen (run_from (run_script env w) ss).2).
Proof.
  intros Hone. unfold run_from, run_script.
  destruct (has_api_key env); [|by repeat constructor].
  destruct (startup env) as [svc|]; [|by repeat constructor].
  destruct (clear_button w); [by constructor|].
  destruct (analyze_button w) eqn:Hanalyze; [|by constructor].
  cbn [when negb]. rewrite bind_run. cbn [mret script_ret].
  rewrite analyze_handler_run. cbn [session screen].
  destruct (text_input w) as [|c T] eqn:HT.
  - rewrite analyze_body_empty by done. by repeat constructor.
  - destruct (analyze_body_screen svc w
                {| session := cleared ss; screen := [] |})
      as (evs & -> & Hall); [by rewrite HT|].
    rewrite app_nil_l. constructor; [done|].
    eapply Forall_impl; [exact Hall|]. intros e He p ->.
    simpl in He. by rewrite (one_button_analyze w Hone Hanalyze) in He.
Qed.

(** X13: in runs where at most one button reports a press -- one press
    per run is how the buttons arrive -- no rewrite prompt is ever sent,
    and over any sequence of such runs, whatever Streamlit binds for its
    widgets in between, every slot holds what it held at the start or
    [None]: the rewrite row, which sits inside the Analyze branch, never
    stores a rewrite. *)
Theorem X13_single_presses_never_rewrite env steps ss :
  Forall (λ i, one_button (values i) = true) steps →
  Forall (λ i, keeps_slots (binds i)) steps →
  (∀ r v, run_many env steps ss !! slot r = Some v →
          ss !! slot r = Some v ∨ v = VNone)
  ∧ Forall (λ i, ∀ ss',
              Forall (λ e, ∀ p, e ≠ LlmInvoke p)
                (screen (run_from (run_script env (values i)) ss').2)) steps.
Proof.
  intros Hone Hkeeps. split.
  - revert ss. induction Hone as [|i rest Hi _ IH]; intros ss r v Hv.
    + by left.
    + apply Forall_cons in Hkeeps as [Hbind Hkeeps].
      simpl in Hv. destruct (IH Hkeeps _ r v Hv) as [Hprev | ->]; [|by right].
      rewrite Hbind in Hprev.
      by apply (only_cleared_run_script env (values i) Hi
                  {| session := ss; screen := [] |}).
  - eapply Forall_impl; [exact Hone|]. intros i Hi ss'.
    by apply no_prompt_in_run.
Qed.

(** ** Runs without a key or without services *)

Lemma run_script_stops env w ss :
  has_api_key env = false ∨ startup env = None →
  ∃ msg, run_from (run_script env w) ss
         = (inl StopScript, {| session := ss; screen := [StError msg] |}).
Proof.
  intros Hbad. unfold run_from, run_script.
  destruct (has_api_key env); [|by eexists].
  destruct Hbad as [ | ->]; [done | by eexists].
Qed.

(** X14: without a key (none, or an empty one) or when the services fail
    to start, every run stops after drawing one error and nothing else,
    whatever buttons are pressed; over any sequence of such runs the
    session is only what Streamlit's own bindings make of it, and is
    unchanged where there are none, so Clear does not clear the slots
    either. *)
Theorem X14_unconfigured_runs_change_nothing env steps ss :
  has_api_key env = false ∨ startup env = None →
  run_many env steps ss = foldl (λ s i, binds i s) ss steps
  ∧ (Forall (λ i, ∀ s, binds i s = s) steps → run_many env steps ss = ss)
  ∧ ∀ w ss', ∃ msg,
      run_from (run_script env w) ss'
      = (inl StopScript, {| session := ss'; screen := [StError msg] |}).
Proof.
  intros Hbad.
  assert (∀ ss0, run_many env steps ss0
                 = foldl (λ s i, binds i s) ss0 steps) as Hruns.
  { induction steps as [|i rest IH]; intros ss0; [reflexivity|]. simpl.
    destruct (run_script_stops env (values i) ss0 Hbad) as [msg ->].
    apply IH. }
  split; [apply Hruns|]. split; [|intros w ss'; by apply run_script_stops].
  intros Hid. rewrite Hruns. clear Hruns. revert ss.
  induction Hid as [|i rest Hi _ IH]; intros ss0; [reflexivity|].
  simpl. rewrite Hi. apply IH.
Qed.

(** ** Earlier rewrites and a new analysis *)

(** X15: a run in which Clear or Analyze is pressed does not depend on
    what the three slots held before: from two sessions that agree on
    every other key it ends the same way, with the same session and the
    same page, so a stored rewrite is neither shown nor kept. *)
Theorem X15_pressed_run_forgets_stored_rewrites env svc w ss1 ss2 :
  has_api_key env = true → startup env = Some svc →
  clear_button w || analyze_button w = true →
  (∀ k, (∀ r, k ≠ slot r) → ss1 !! k = ss2 !! k) →
  run_from (run_script env w) ss1 = run_from (run_script env w) ss2.
Proof.
  intros Hkey Hsvc Hpress Hagree.
  rewrite (run_script_ready env svc) by done. unfold run_from.
  destruct (clear_button w).
  - assert (∀ ss, (when true clear_handler ;;
                   when (analyze_button w) (analyze_handler svc w))
                    {| session := ss; screen := [] |}
                  = (inl RerunScript,
                     {| session := cleared ss; screen := [] |})) as Hclear
      by reflexivity.
    by rewrite !Hclear, (cleared_agree ss1 ss2).
  - simpl in Hpress. rewrite Hpress. cbn [when].
    rewrite !bind_run. cbn [mret script_ret].
    rewrite !analyze_handler_run. cbn [session screen].
    by rewrite (cleared_agree ss1 ss2).
Qed.

End OneButton.

(** ** The session keys the script depends on *)

Section SlotsOnly.
Context `{RT : PyRuntime}.

Lemma same_slots_refl st : same_slots st st.
Proof. by split. Qed.

Lemma slots_only_ret {A} (x : A) : slots_only (mret x).
Proof. intros st1 st2 Hsame. by split. Qed.

Lemma slots_only_halt {A} h : slots_only (halt_with h : script A).
Proof. intros st1 st2 Hsame. by split. Qed.

Lemma slots_only_emit e : slots_only (emit e).
Proof.
  intros st1 st2 [Hscreen Hslots]. split; [done|]. split; [|done].
  simpl. by rewrite Hscreen.
Qed.

Lemma slots_only_assign r v : slots_only (assign (slot r) v).
Proof.
  intros st1 st2 [Hscreen Hslots]. split; [done|]. split; [done|].
  intros r'. simpl. destruct (decide (slot r = slot r')) as [->|Hne].
  - by rewrite !lookup_insert_eq.
  - by rewrite !lookup_insert_ne.
Qed.

Lemma slots_only_not_in_session r : slots_only (not_in_session (slot r)).
Proof.
  intros st1 st2 [Hscreen Hslots]. split; [|by split].
  simpl. by rewrite (Hslots r).
Qed.

Lemma slots_only_read r : slots_only (read (slot r)).
Proof.
  intros st1 st2 [Hscreen Hslots]. unfold read. rewrite (Hslots r).
  destruct (session st2 !! slot r); by repeat split.
Qed.

Lemma slots_only_bind {A B} (m : script A) (k : A → script B) :
  slots_only m → (∀ x, slots_only (k x)) → slots_only (m ≫= k).
Proof.
  intros Hm Hk st1 st2 Hsame.
  destruct (Hm st1 st2 Hsame) as [Hend Hnext].
  unfold mbind, script_bind.
  destruct (m st1) as [[h1|x1] st1'], (m st2) as [[h2|x2] st2'];
    simpl in Hend, Hnext; try discriminate.
  - injection Hend as ->. by split.
  - injection Hend as ->. by apply Hk.
Qed.

Lemma slots_only_when b m : slots_only m → slots_only (when b m).
Proof. intros Hm. destruct b; [exact Hm | apply slots_only_ret]. Qed.

Lemma slots_only_py_get d k dflt : slots_only (py_get d k dflt).
Proof.
  destruct d; first [apply slots_only_ret | apply slots_only_halt].
Qed.

Lemma slots_only_st_metric label value : slots_only (st_metric label value).
Proof.
  unfold st_metric.
  destruct (metric_value value); [apply slots_only_emit | apply slots_only_halt].
Qed.

Lemma slots_only_for_enumerate i0 l body :
  (∀ i x, slots_only (body i x)) → slots_only (for_enumerate i0 l body).
Proof.
  intros Hbody. revert i0.
  induction l as [|x rest IH]; intros i0; [apply slots_only_ret|].
  simpl. apply slots_only_bind; [apply Hbody | intros _; apply IH].
Qed.

(** Splits a goal [slots_only m] along the structure of [m]. *)
Ltac slots_only :=
  repeat first
    [ apply slots_only_ret
    | apply slots_only_st_metric
    | apply slots_only_halt
    | apply slots_only_py_get
    | apply slots_only_emit
    | apply slots_only_when
    | apply slots_only_for_enumerate; intros ? ?
    | apply slots_only_bind; [|intros ?] ].

Lemma slots_only_reset_slots : slots_only reset_slots.
Proof.
  unfold reset_slots.
  apply slots_only_bind; [apply (slots_only_assign RFormal) | intros _].
  apply slots_only_bind; [apply (slots_only_assign RCreative) | intros _].
  apply (slots_only_assign RProfessional).
Qed.

Lemma slots_only_clear_handler : slots_only clear_handler.
Proof.
  unfold clear_handler.
  apply slots_only_bind; [apply (slots_only_assign RFormal) | intros _].
  apply slots_only_bind; [apply (slots_only_assign RCreative) | intros _].
  apply slots_only_bind; [apply (slots_only_assign RProfessional) | intros _].
  apply slots_only_halt.
Qed.

Lemma slots_only_init_slot r :
  slots_only (absent ← not_in_session (slot r);
              when absent (assign (slot r) VNone)).
Proof.
  apply slots_only_bind; [apply slots_only_not_in_session | intros absent].
  apply slots_only_when, slots_only_assign.
Qed.

Lemma slots_only_init_slots : slots_only init_slots.
Proof.
  unfold init_slots.
  apply slots_only_bind; [apply (slots_only_init_slot RFormal) | intros _].
  apply slots_only_bind; [apply (slots_only_init_slot RCreative) | intros _].
  apply (slots_only_init_slot RProfessional).
Qed.

Lemma slots_only_rewrite_column svc w r corrected :
  slots_only (rewrite_column svc w r corrected).
Proof.
  unfold rewrite_column.
  apply slots_only_bind; [|intros _].
  - apply slots_only_when. unfold rewrite_handler.
    apply slots_only_bind; [apply slots_only_emit | intros _].
    destruct (llm_invoke svc (rewrite_prompt r corrected));
      [apply slots_only_assign | apply slots_only_emit].
  - apply slots_only_bind; [apply slots_only_read | intros version].
    apply slots_only_when, slots_only_emit.
Qed.

Lemma slots_only_show_list enabled key k result :
  slots_only (show_list enabled key k result).
Proof. unfold show_list. slots_only. destruct x; slots_only. Qed.

Lemma slots_only_show_results svc w result :
  slots_only (show_results svc w result).
Proof.
  unfold show_results.
  apply slots_only_bind; [unfold show_stats; slots_only | intros _].
  apply slots_only_bind; [|intros _].
  { unfold show_error_type. slots_only.
    - unfold lower_is_none. destruct x; slots_only.
    - destruct x0; slots_only. }
  apply slots_only_bind; [|intros _].
  { unfold show_tone_info. slots_only.
    unfold tone_colors_get. destruct x; simpl; slots_only. }
  apply slots_only_bind; [apply slots_only_py_get | intros corrected].
  apply slots_only_bind; [|intros _].
  { unfold show_comparison. slots_only. destruct (auto_correct w); slots_only. }
  repeat (apply slots_only_bind; [apply slots_only_show_list | intros _]).
  unfold paraphrasing.
  apply slots_only_bind; [apply slots_only_init_slots | intros _].
  repeat (apply slots_only_bind;
          [apply slots_only_rewrite_column | intros _]).
  apply slots_only_rewrite_column.
Qed.

Lemma slots_only_run_script env w : slots_only (run_script env w).
Proof.
  unfold run_script.
  destruct (has_api_key env); simpl; [|slots_only].
  destruct (startup env) as [svc|]; [|slots_only].
  apply slots_only_bind; [|intros _].
  - apply slots_only_when, slots_only_clear_handler.
  - apply slots_only_when. unfold analyze_handler.
    apply slots_only_bind; [apply slots_only_reset_slots | intros _].
    unfold analyze_body.
    destruct (negb (truthy (VStr (text_input w)))); [apply slots_only_emit|].
    apply slots_only_bind;
      [|intros result; apply slots_only_show_results].
    unfold analyze.
    apply slots_only_bind; [apply slots_only_emit | intros _].
    destruct (chain_invoke svc (analysis_text w)); slots_only.
Qed.

(** X16: of [st.session_state] a run reads the three slots and nothing
    else.  From two sessions that hold the same under [formal_version],
    [creative_version] and [professional_version] -- whatever else they
    hold, such as the values Streamlit binds for the text area and the
    buttons -- a run with the same widget values ends the same way, draws
    the same page and leaves the same values in the three slots. *)
Theorem X16_run_reads_only_the_slots env w ss1 ss2 :
  (∀ r, ss1 !! slot r = ss2 !! slot r) →
  (run_from (run_script env w) ss1).1 = (run_from (run_script env w) ss2).1
  ∧ screen (run_from (run_script env w) ss1).2
    = screen (run_from (run_script env w) ss2).2
  ∧ ∀ r, session (run_from (run_script env w) ss1).2 !! slot r
         = session (run_from (run_script env w) ss2).2 !! slot r.
Proof.
  intros Hslots.
  destruct (slots_only_run_script env w
              {| session := ss1; screen := [] |}
              {| session := ss2; screen := [] |}) as (Hend & Hscreen & Hafter);
    [by split|].
  by repeat split.
Qed.

End SlotsOnly.

(** ** Instances of the further properties *)

Lemma X2_witness :
  analysis_text typed_tag = analysis_text chosen_tone.
Proof.
  destruct (X2_typed_tag_sends_the_same_request (answering VNone)
              chosen_tone Formal (lit "kal milte hai")
              {| session := ∅; screen := [] |} VNone) as [Hsame _];
    [discriminate | reflexivity |].
  exact Hsame.
Defined.

Lemma X4_witness :
  (show_list true (lit "explanations") ExplanationItem
     (VDict two_explanations) {| session := ∅; screen := [] |}).2.(screen)
  = [StItem ExplanationItem 1 (lit "Added comma");
     StItem ExplanationItem 2 (lit "Changed name to naam")].
Proof.
  destruct (X4_list_panel_numbers_entries_in_order true (lit "explanations")
              ExplanationItem two_explanations
              [VStr (lit "Added comma"); VStr (lit "Changed name to naam")]
              {| session := ∅; screen := [] |}) as [Hrun _];
    [reflexivity|].
  by rewrite Hrun.
Defined.

Lemma X8_witness :
  session (rewrite_column (rewriting (VStr (lit "Kindly meet tomorrow.")))
             (formal_pressed (lit "kal milte hai")) RFormal
             (VStr (lit "kal milte hai"))
             {| session := cleared ∅; screen := [] |}).2
  !! "formal_version" = Some (VStr (lit "Kindly meet tomorrow.")).
Proof.
  rewrite (X8_rewrite_column_stores_then_shows
             (rewriting (VStr (lit "Kindly meet tomorrow.")))
             (formal_pressed (lit "kal milte hai")) RFormal
             (VStr (lit "kal milte hai"))
             {| session := cleared ∅; screen := [] |} VNone);
    [|reflexivity].
  reflexivity.
Defined.

Lemma X11_witness :
  (analyze_body failing (sample_widgets Formal (lit "kal milte hai"))
     {| session := cleared ∅; screen := [] |}).1 = inr tt.
Proof.
  destruct (X11_failed_analysis_is_shown_as_no_errors failing
              (sample_widgets Formal (lit "kal milte hai"))
              {| session := cleared ∅; screen := [] |}
              (lit "Invalid json output")) as (_ & Hend & _);
    [discriminate | reflexivity |].
  exact Hend.
Defined.

Lemma typing_keeps_slots w : keeps_slots (binds (typing w)).
Proof.
  intros ss r. simpl. apply lookup_insert_ne. by destruct r.
Qed.

Lemma X12_witness :
  let svc := rewriting (VStr (lit "Kindly meet tomorrow.")) in
  let final :=
    run_many (sample_env svc) [typing (formal_pressed (lit "kal milte hai"))]
      used_session in
  final !! "formal_version" = Some (VStr (lit "Kindly meet tomorrow."))
  ∧ final !! "input_text" = Some (VStr (lit "kal milte hai"))
  ∧ from_llm svc (VStr (lit "Kindly meet tomorrow.")).
Proof.
  intros svc final.
  assert (final !! slot RFormal = Some (VStr (lit "Kindly meet tomorrow.")))
    as Hv by reflexivity.
  split; [exact Hv|]. split; [reflexivity|].
  assert (Forall (λ i, keeps_slots (binds i))
            [typing (formal_pressed (lit "kal milte hai"))]) as Hkeeps.
  { repeat constructor. apply typing_keeps_slots. }
  destruct (X12_session_holds_only_returned_rewrites svc (sample_env svc)
              [typing (formal_pressed (lit "kal milte hai"))] used_session
              eq_refl Hkeeps RFormal (VStr (lit "Kindly meet tomorrow."))
              Hv) as [Hold|Hllm].
  - discriminate Hold.
  - exact Hllm.
Defined.

Lemma X13_witness :
  run_many (sample_env (rewriting (VStr (lit "Kindly meet tomorrow."))))
    [typing (sample_widgets KeepOriginal (lit "kal milte hai"));
     typing (clear_widgets (lit "kal"))] ∅ !! "formal_version"
  ≠ Some (VStr (lit "Kindly meet tomorrow.")).
Proof.
  intros Hv.
  destruct (X13_single_presses_never_rewrite
              (sample_env (rewriting (VStr (lit "Kindly meet tomorrow."))))
              [typing (sample_widgets KeepOriginal (lit "kal milte hai"));
               typing (clear_widgets (lit "kal"))] ∅) as [Hslots _].
  - by repeat constructor.
  - repeat constructor; apply typing_keeps_slots.
  - destruct (Hslots RFormal _ Hv) as [Habsent | Hnone];
      [|discriminate Hnone].
    by rewrite lookup_empty in Habsent.
Defined.

Lemma X14_witness :
  run_many no_key_env
    [{| values := clear_widgets (lit "kal"); binds := id |}] used_session
  = used_session.
Proof.
  destruct (X14_unconfigured_runs_change_nothing no_key_env
              [{| values := clear_widgets (lit "kal"); binds := id |}]
              used_session) as (_ & Hsame & _); [by left|].
  apply Hsame. by repeat constructor.
Defined.

Lemma X15_witness :
  run_from (run_script (sample_env failing)
              (sample_widgets KeepOriginal (lit "kal milte hai")))
    used_session
  = run_from (run_script (sample_env failing)
                (sample_widgets KeepOriginal (lit "kal milte hai"))) ∅.
Proof.
  apply (X15_pressed_run_forgets_stored_rewrites (sample_env failing) failing);
    [reflexivity | reflexivity | reflexivity |].
  intros k Hk. unfold used_session. rewrite lookup_insert_ne; [done|].
  intros <-. by apply (Hk RFormal).
Defined.

Lemma X16_witness :
  screen (run_from (run_script (sample_env failing)
                      (formal_pressed (lit "kal milte hai")))
            (<["input_text" := VStr (lit "kal milte hai")]> used_session)).2
  = screen (run_from (run_script (sample_env failing)
                        (formal_pressed (lit "kal milte hai")))
              used_session).2.
Proof.
  destruct (X16_run_reads_only_the_slots (sample_env failing)
              (formal_pressed (lit "kal milte hai"))
              (<["input_text" := VStr (lit "kal milte hai")]> used_session)
              used_session) as (_ & Hpage & _); [|exact Hpage].
  intros r. apply lookup_insert_ne. by destruct r.
Defined.
